(** * CSV-to-JSON PUT loaders: payload construction and per-row dispatch

    A shallow embedding of the two loader scripts

      - [PythonAPILoader-CustomResource/CustomResourceLoader.py]   (variant A)
      - [PythonAPILoader-VulnerabilityResource/VulnerabilityLoader.py] (variant B)

    and of the pieces of the Python runtime they call ([str.strip],
    [str.lower], [str.split], [json.loads], ...).

    Conventions.
    - A Python [str] is a [string]; a character is one [ascii].  The model is
      exact on ASCII text.  Text outside ASCII is carried as its UTF-8 bytes,
      which [strip] and [lower] leave alone.
    - A Python value is a [pyval]; a [dict] is an association list in
      insertion order whose keys are pairwise distinct ([dict_set] keeps the
      position of a key that is already there, as Python does).  The
      statements below hold for every association list, so for every dict.
    - A raised exception is the [Raise] case of [result].
    - [json.loads] is modelled in full for its two outcomes, a value or a
      [JSONDecodeError].  A float keeps the text of its literal.  The
      interpreter's own limits (nesting deeper than the recursion limit,
      integer literals longer than the digit limit), which end in other
      exceptions, are not part of the model.
    - [str(x)] of a float, a list or a dict is a parameter, [py_repr]. *)

From Stdlib Require Import String Ascii List ZArith Bool Arith Lia.
From Stdlib Require Import Numbers.DecimalString.
Import ListNotations.

Local Open Scope string_scope.
Local Open Scope list_scope.

(** ** Python built-ins on strings *)

Module Py.

(** [str.isspace] on one ASCII character: TAB, LF, VT, FF, CR, the four
    separators 0x1c-0x1f and the blank. *)
Definition is_space (c : ascii) : bool :=
  let n := nat_of_ascii c in
  (((9 <=? n) && (n <=? 13)) || ((28 <=? n) && (n <=? 32)))%nat.

(** [s.lstrip(chars)], with the set of characters given as a predicate. *)
Fixpoint lstrip_set (p : ascii -> bool) (s : string) : string :=
  match s with
  | String c r => if p c then lstrip_set p r else s
  | EmptyString => EmptyString
  end.

(** [s.rstrip(chars)]. *)
Fixpoint rstrip_set (p : ascii -> bool) (s : string) : string :=
  match s with
  | EmptyString => EmptyString
  | String c r =>
      match rstrip_set p r with
      | EmptyString => if p c then EmptyString else String c EmptyString
      | r' => String c r'
      end
  end.

(** A text with nothing for [rstrip] to take off its right end. *)
Definition rstripped (p : ascii -> bool) (t : string) : Prop :=
  rstrip_set p t = t.

(** [s.strip()] *)
Definition strip (s : string) : string :=
  lstrip_set is_space (rstrip_set is_space s).

(** Membership of a character in a string used as a set of characters. *)
Fixpoint char_in (c : ascii) (chars : string) : bool :=
  match chars with
  | EmptyString => false
  | String d r => Ascii.eqb c d || char_in c r
  end.

(** [s.rstrip(chars)] with [chars] a string. *)
Definition rstrip_chars (chars s : string) : string :=
  rstrip_set (fun c => char_in c chars) s.

Definition lower_char (c : ascii) : ascii :=
  let n := nat_of_ascii c in
  if ((65 <=? n) && (n <=? 90))%nat then ascii_of_nat (n + 32) else c.

(** [s.lower()] *)
Fixpoint lower (s : string) : string :=
  match s with
  | EmptyString => EmptyString
  | String c r => String (lower_char c) (lower r)
  end.

(** [s.startswith(p)] *)
Definition startswith (s p : string) : bool := String.prefix p s.

(** [s[n:]] *)
Fixpoint drop (n : nat) (s : string) : string :=
  match n, s with
  | S n', String _ r => drop n' r
  | _, _ => s
  end.

(** [s.endswith(p)] *)
Definition endswith (s p : string) : bool :=
  let n := String.length s in
  let m := String.length p in
  (m <=? n)%nat && String.eqb (drop (n - m) s) p.

(** [sub in s] for strings. *)
Fixpoint contains (s sub : string) : bool :=
  String.prefix sub s ||
  match s with
  | EmptyString => false
  | String _ r => contains r sub
  end.

(** [s.split(sep)] for a separator of one character: the pieces between the
    occurrences of [sep], empty pieces included; never the empty list. *)
Fixpoint split (sep : ascii) (s : string) : list string :=
  match s with
  | EmptyString => [EmptyString]
  | String c r =>
      if Ascii.eqb c sep then EmptyString :: split sep r
      else match split sep r with
           | p :: ps => String c p :: ps
           | [] => [String c EmptyString]
           end
  end.

(** [sep.join(parts)] *)
Fixpoint join (sep : string) (parts : list string) : string :=
  match parts with
  | [] => EmptyString
  | [p] => p
  | p :: rest => p ++ sep ++ join sep rest
  end.

(** Truth value of a string: empty is false. *)
Definition truthy_str (s : string) : bool := negb (String.eqb s "").

(** [s[:n]] *)
Definition take (n : nat) (s : string) : string := String.substring 0 n s.

(** Decimal text of an integer, as [str(int)] prints it. *)
Definition str_of_Z (z : Z) : string := NilZero.string_of_int (Z.to_int z).

End Py.

(** ** Python values, dictionaries and exceptions *)

(** The values the loaders handle: what a CSV cell, a JSON document and a
    payload are made of.  A float is kept as the text of its literal. *)
#[local] Unset Elimination Schemes.
Inductive pyval : Type :=
| VNone
| VBool (b : bool)
| VInt (z : Z)
| VFloat (literal : string)
| VStr (s : string)
| VList (items : list pyval)
| VDict (entries : list (string * pyval)).
#[local] Set Elimination Schemes.

Section Dict.
Context {V : Type}.

(** [d.get(k)] *)
Fixpoint dict_get (d : list (string * V)) (k : string) : option V :=
  match d with
  | [] => None
  | (k', v) :: r => if String.eqb k k' then Some v else dict_get r k
  end.

(** [k in d] *)
Definition dict_has (d : list (string * V)) (k : string) : bool :=
  match dict_get d k with Some _ => true | None => false end.

(** [d[k] = v]: a key already there keeps its place. *)
Fixpoint dict_set (d : list (string * V)) (k : string) (v : V)
  : list (string * V) :=
  match d with
  | [] => [(k, v)]
  | (k', v') :: r =>
      if String.eqb k k' then (k, v) :: r else (k', v') :: dict_set r k v
  end.

(** [dict(pairs)] and dict comprehensions: later pairs overwrite. *)
Definition dict_of_pairs (pairs : list (string * V)) : list (string * V) :=
  fold_left (fun d kv => dict_set d (fst kv) (snd kv)) pairs [].

Definition dict_keys (d : list (string * V)) : list string := map fst d.
End Dict.

(** The exceptions the loaders raise.
    - [MissingResourceId]: [ValueError("resourceId is missing: ...")]
    - [InvalidBoolean raw]: [ValueError(f"Cannot parse boolean from value
      {raw!r} for mfaEnabled")]
    - [MissingIdColumn col headers]: [KeyError(f"Configured id-column '{col}'
      not found in CSV columns: {headers}")]
    - [MissingHeader]: [ValueError("CSV file appears to have no header row /
      fieldnames.")] *)
Inductive exn : Type :=
| MissingResourceId
| InvalidBoolean (raw : pyval)
| MissingIdColumn (col : string) (headers : list string)
| MissingHeader.

Inductive result (A : Type) : Type :=
| Ret (a : A)
| Raise (e : exn).
Arguments Ret {A} a.
Arguments Raise {A} e.

Definition bind {A B : Type} (m : result A) (k : A -> result B) : result B :=
  match m with
  | Ret a => k a
  | Raise e => Raise e
  end.

Notation "'let*' x ':=' m 'in' k" := (bind m (fun x => k))
  (at level 10, x name, m at level 100, k at level 200).

(** [x in (None, "")] *)
Definition none_or_empty (x : pyval) : bool :=
  match x with
  | VNone => true
  | VStr EmptyString => true
  | _ => false
  end.

(** ** [json.loads] *)

Module Json.

Local Open Scope char_scope.

(** Outcome of a scanner on a piece of text: a value and the text left, a
    [JSONDecodeError], or recursion budget used up. *)
Inductive parse (A : Type) : Type :=
| Parsed (a : A) (rest : string)
| Malformed
| OutOfFuel.
Arguments Parsed {A} a rest.
Arguments Malformed {A}.
Arguments OutOfFuel {A}.

Definition pmap {A B : Type} (f : A -> B) (p : parse A) : parse B :=
  match p with
  | Parsed a r => Parsed (f a) r
  | Malformed => Malformed
  | OutOfFuel => OutOfFuel
  end.

(** The double quote. *)
Definition quote : ascii := "034".

(** The decoder's whitespace: blank, TAB, LF, CR. *)
Definition is_ws (c : ascii) : bool :=
  Ascii.eqb c " " || Ascii.eqb c "009" || Ascii.eqb c "010" || Ascii.eqb c "013".

Definition skip_ws (s : string) : string := Py.lstrip_set is_ws s.

Definition is_digit (c : ascii) : bool :=
  let n := nat_of_ascii c in ((48 <=? n) && (n <=? 57))%nat.

Definition hex_value (c : ascii) : option N :=
  let n := N_of_ascii c in
  if ((48 <=? n) && (n <=? 57))%N then Some (n - 48)%N
  else if ((65 <=? n) && (n <=? 70))%N then Some (n - 55)%N
  else if ((97 <=? n) && (n <=? 102))%N then Some (n - 87)%N
  else None.

(** Four hexadecimal digits of a [\uXXXX] escape. *)
Definition hex4 (s : string) : option (N * string) :=
  match s with
  | String a (String b (String c (String d r))) =>
      match hex_value a, hex_value b, hex_value c, hex_value d with
      | Some x, Some y, Some z, Some w =>
          Some ((((x * 16 + y) * 16 + z) * 16 + w)%N, r)
      | _, _, _, _ => None
      end
  | _ => None
  end.

Definition byte (n : N) : ascii := ascii_of_N n.

(** [chr(u)], as UTF-8. *)
Definition utf8 (u : N) : string :=
  (if u <? 128 then String (byte u) ""
   else if u <? 2048 then
     String (byte (192 + u / 64)) (String (byte (128 + u mod 64)) "")
   else if u <? 65536 then
     String (byte (224 + u / 4096))
       (String (byte (128 + (u / 64) mod 64))
          (String (byte (128 + u mod 64)) ""))
   else
     String (byte (240 + u / 262144))
       (String (byte (128 + (u / 4096) mod 64))
          (String (byte (128 + (u / 64) mod 64))
             (String (byte (128 + u mod 64)) ""))))%N%string.

(** The one-letter escapes of a JSON string. *)
Definition backslash (c : ascii) : option ascii :=
  if Ascii.eqb c quote then Some quote
  else if Ascii.eqb c "\" then Some "\"
  else if Ascii.eqb c "/" then Some "/"
  else if Ascii.eqb c "b" then Some "008"
  else if Ascii.eqb c "f" then Some "012"
  else if Ascii.eqb c "n" then Some "010"
  else if Ascii.eqb c "r" then Some "013"
  else if Ascii.eqb c "t" then Some "009"
  else None.

Definition is_high_surrogate (u : N) : bool := ((55296 <=? u) && (u <=? 56319))%N.
Definition is_low_surrogate (u : N) : bool := ((56320 <=? u) && (u <=? 57343))%N.

(** [scanstring], strict: the text after the opening quote, up to and
    including the closing one. *)
Fixpoint scanstring (fuel : nat) (s : string) : parse string :=
  match fuel with
  | O => OutOfFuel
  | S fuel' =>
      match s with
      | EmptyString => Malformed
      | String c r =>
          if Ascii.eqb c quote then Parsed EmptyString r
          else if Ascii.eqb c "\" then
            match r with
            | EmptyString => Malformed
            | String e r1 =>
                if Ascii.eqb e "u" then
                  match hex4 r1 with
                  | None => Malformed
                  | Some (u, r2) =>
                      if is_high_surrogate u && Py.startswith r2 "\u" then
                        match hex4 (Py.drop 2 r2) with
                        | None => Malformed
                        | Some (u2, r4) =>
                            if is_low_surrogate u2 then
                              pmap (append (utf8 (65536 + ((u - 55296) * 1024 + (u2 - 56320)))%N))
                                   (scanstring fuel' r4)
                            else pmap (append (utf8 u)) (scanstring fuel' r2)
                        end
                      else pmap (append (utf8 u)) (scanstring fuel' r2)
                  end
                else
                  match backslash e with
                  | Some x => pmap (String x) (scanstring fuel' r1)
                  | None => Malformed
                  end
            end
          else if (nat_of_ascii c <? 32)%nat then Malformed
          else pmap (String c) (scanstring fuel' r)
      end
  end.

(** The longest run of digits at the head of a text, and what follows. *)
Fixpoint digits (s : string) : string * string :=
  match s with
  | String c r =>
      if is_digit c then let (ds, r') := digits r in (String c ds, r')
      else (EmptyString, s)
  | EmptyString => (EmptyString, EmptyString)
  end.

(** [NUMBER_RE], group by group: an optional minus sign and either [0] or a
    digit from 1 to 9 with any digits after it; optionally a dot and at
    least one digit; optionally [e] or [E], an optional sign and at least
    one digit.  An absent group is the empty text. *)
Definition match_integer (s : string) : option (string * string) :=
  let (sign, s1) :=
    match s with
    | String c r => if Ascii.eqb c "-" then ("-"%string, r) else (EmptyString, s)
    | EmptyString => (EmptyString, s)
    end in
  match s1 with
  | String c r =>
      if Ascii.eqb c "0" then Some ((sign ++ "0")%string, r)
      else if is_digit c then
        let (ds, r') := digits r in Some ((sign ++ String c ds)%string, r')
      else None
  | EmptyString => None
  end.

Definition match_frac (s : string) : string * string :=
  match s with
  | String c r =>
      if Ascii.eqb c "." then
        match digits r with
        | (EmptyString, _) => (EmptyString, s)
        | (ds, r') => (String c ds, r')
        end
      else (EmptyString, s)
  | EmptyString => (EmptyString, s)
  end.

Definition match_exp (s : string) : string * string :=
  match s with
  | String c r =>
      if Ascii.eqb c "e" || Ascii.eqb c "E" then
        let (sign, r1) :=
          match r with
          | String d r0 =>
              if Ascii.eqb d "-" || Ascii.eqb d "+"
              then (String d EmptyString, r0) else (EmptyString, r)
          | EmptyString => (EmptyString, r)
          end in
        match digits r1 with
        | (EmptyString, _) => (EmptyString, s)
        | (ds, r') => (String c (sign ++ ds), r')
        end
      else (EmptyString, s)
  | EmptyString => (EmptyString, s)
  end.

(** [int(text)] for an optional minus sign and decimal digits. *)
Fixpoint nat_of_digits (acc : Z) (s : string) : Z :=
  match s with
  | EmptyString => acc
  | String c r => nat_of_digits (10 * acc + Z.of_nat (nat_of_ascii c - 48)) r
  end.

Definition int_of_text (s : string) : Z :=
  match s with
  | String c r => if Ascii.eqb c "-" then (- nat_of_digits 0 r)%Z
                  else nat_of_digits 0 s
  | EmptyString => 0%Z
  end.

Definition match_number (s : string) : option (pyval * string) :=
  match match_integer s with
  | None => None
  | Some (integer, r0) =>
      let (frac, r1) := match_frac r0 in
      let (exp, r2) := match_exp r1 in
      match frac, exp with
      | EmptyString, EmptyString => Some (VInt (int_of_text integer), r2)
      | _, _ => Some (VFloat (integer ++ frac ++ exp), r2)
      end
  end.

Section Containers.
(** The scanner for one value, one level of nesting down. *)
Variable scan : string -> parse pyval.

(** [JSONArray] after the look-ahead for the empty array: a value, then
    [","] and another or the closing bracket. *)
Fixpoint array_items (n : nat) (s : string) : parse (list pyval) :=
  match n with
  | O => OutOfFuel
  | S n' =>
      match scan s with
      | Parsed v r =>
          match skip_ws r with
          | String c r' =>
              if Ascii.eqb c "]" then Parsed [v] r'
              else if Ascii.eqb c "," then
                pmap (cons v) (array_items n' (skip_ws r'))
              else Malformed
          | EmptyString => Malformed
          end
      | Malformed => Malformed
      | OutOfFuel => OutOfFuel
      end
  end.

(** [JSONArray]: the text after the opening bracket. *)
Definition parse_array (s : string) : parse (list pyval) :=
  match skip_ws s with
  | String c r =>
      if Ascii.eqb c "]" then Parsed [] r
      else array_items (S (String.length s)) (skip_ws s)
  | EmptyString => Malformed
  end.

(** [JSONObject] from the opening quote of a property name on: name,
    colon, value, then [","] and another or the closing brace. *)
Fixpoint object_items (n : nat) (s : string) : parse (list (string * pyval)) :=
  match n with
  | O => OutOfFuel
  | S n' =>
      match s with
      | String q r =>
          if Ascii.eqb q quote then
            match scanstring (S (String.length r)) r with
            | Parsed key r1 =>
                match skip_ws r1 with
                | String c r2 =>
                    if Ascii.eqb c ":" then
                      match scan (skip_ws r2) with
                      | Parsed v r3 =>
                          match skip_ws r3 with
                          | String d r4 =>
                              if Ascii.eqb d "}" then Parsed [(key, v)] r4
                              else if Ascii.eqb d "," then
                                pmap (cons (key, v))
                                     (object_items n' (skip_ws r4))
                              else Malformed
                          | EmptyString => Malformed
                          end
                      | Malformed => Malformed
                      | OutOfFuel => OutOfFuel
                      end
                    else Malformed
                | EmptyString => Malformed
                end
            | Malformed => Malformed
            | OutOfFuel => OutOfFuel
            end
          else Malformed
      | EmptyString => Malformed
      end
  end.

(** [JSONObject]: the text after the opening brace; the pairs go through
    [dict(pairs)]. *)
Definition parse_object (s : string) : parse (list (string * pyval)) :=
  match skip_ws s with
  | String c r =>
      if Ascii.eqb c "}" then Parsed [] r
      else pmap dict_of_pairs (object_items (S (String.length s)) (skip_ws s))
  | EmptyString => Malformed
  end.
End Containers.

(** [scan_once]: one JSON value at the head of the text. *)
Fixpoint scan_once (fuel : nat) (s : string) : parse pyval :=
  match fuel with
  | O => OutOfFuel
  | S fuel' =>
      match s with
      | EmptyString => Malformed
      | String c r =>
          if Ascii.eqb c quote then
            pmap VStr (scanstring (S (String.length r)) r)
          else if Ascii.eqb c "{" then
            pmap VDict (parse_object (scan_once fuel') r)
          else if Ascii.eqb c "[" then
            pmap VList (parse_array (scan_once fuel') r)
          else if Py.startswith s "null" then
            Parsed VNone (Py.drop 4 s)
          else if Py.startswith s "true" then
            Parsed (VBool true) (Py.drop 4 s)
          else if Py.startswith s "false" then
            Parsed (VBool false) (Py.drop 5 s)
          else
            match match_number s with
            | Some (v, r') => Parsed v r'
            | None =>
                if Py.startswith s "NaN" then
                  Parsed (VFloat "NaN") (Py.drop 3 s)
                else if Py.startswith s "Infinity" then
                  Parsed (VFloat "Infinity") (Py.drop 8 s)
                else if Py.startswith s "-Infinity" then
                  Parsed (VFloat "-Infinity") (Py.drop 9 s)
                else Malformed
            end
      end
  end.

(** [JSONDecoder.decode]: leading whitespace, one value, trailing
    whitespace, and nothing else. *)
Definition decode (s : string) : parse pyval :=
  match scan_once (S (String.length s)) (skip_ws s) with
  | Parsed v r =>
      match skip_ws r with
      | EmptyString => Parsed v EmptyString
      | String _ _ => Malformed
      end
  | Malformed => Malformed
  | OutOfFuel => OutOfFuel
  end.

(** [json.loads(s)]: [Some] the value, [None] for [json.JSONDecodeError]. *)
Definition loads (s : string) : option pyval :=
  match decode s with
  | Parsed v _ => Some v
  | _ => None
  end.

(** A scanner that started on [s] and left [r] has read a non-empty piece
    off the front of [s]. *)
Definition eats (s r : string) : Prop :=
  (exists pre, s = (pre ++ r)%string) /\ String.length r < String.length s.

Definition is_number (v : pyval) : Prop :=
  match v with
  | VInt _ | VFloat _ => True
  | _ => False
  end.

(** What the value [scan_once] returns tells about the text it was read
    from. *)
Definition scanned (s : string) (v : pyval) (r : string) : Prop :=
  eats s r /\
  match v with
  | VList _ => exists pre, s = ("[" ++ pre ++ "]" ++ r)%string
  | VNone => Py.startswith s "null" = true
  | _ => True
  end /\
  (forall t, s = String "[" t -> exists xs, v = VList xs) /\
  (forall t, s = String "{" t -> exists d, v = VDict d).

End Json.

(** ** Records *)

(** One CSV row as [csv.DictReader] yields it: column name to cell, where a
    cell is a string, or [None] when the row is shorter than the header. *)
Definition cell : Type := option string.
Definition record : Type := list (string * cell).

Definition val_of_cell (c : cell) : pyval :=
  match c with
  | Some s => VStr s
  | None => VNone
  end.

(** [csv_row.get(k)]: the cell, [None] also when the column is not there. *)
Definition row_get (csv_row : record) (k : string) : cell :=
  match dict_get csv_row k with
  | Some c => c
  | None => None
  end.

(** [a or b] on optional strings: [None] and the empty string are false. *)
Definition or_else (a b : cell) : cell :=
  match a with
  | Some s => if Py.truthy_str s then a else b
  | None => b
  end.

(** The payload [{k1: v1, "resources": [resource_obj], ...}] is a [VDict];
    these read it back. *)
Definition payload_get (payload : pyval) (k : string) : option pyval :=
  match payload with
  | VDict d => dict_get d k
  | _ => None
  end.

(** [payload["resources"][0]] *)
Definition resources0 (payload : pyval) : option pyval :=
  match payload_get payload "resources" with
  | Some (VList (r :: _)) => Some r
  | _ => None
  end.


(** ** The command-line driver, common to both scripts

    The two [main] functions are the same text but for the [build_payload]
    they call.  The file is given as what [csv.DictReader] makes of it, the
    network as a function from a request to its outcome, and the console as
    the list of what was printed. *)

Module Runner.

Record args : Type := {
  api_url : string;
  auth_token : option string;
  id_column : option string;
  resource_id : option string;
  timeout : Z;
  dry_run : bool
}.

(** What [csv.DictReader] gives: [fieldnames] ([None] for a file without a
    header row) and the rows in file order. *)
Record reader : Type := {
  fieldnames : option (list string);
  rows : list record
}.

(** What [send_row_put] does: a response with its status and text, or a
    [requests.RequestException] with its message. *)
Inductive outcome : Type :=
| Response (status_code : Z) (text : string)
| RequestException (message : string).

(** One [requests.put] call: row number, URL, JSON body, headers, timeout. *)
Definition network : Type :=
  nat -> string -> pyval -> list (string * string) -> Z -> outcome.

(** What [main] prints.
    - [FieldsDetected hs]: [Fields detected in CSV: hs]
    - [DryRun i url payload]: the [[DRY RUN] Row #i], [PUT url], [Payload:]
      lines and the indented JSON
    - [RowError i e]: [[ERROR] Row #i: request failed: e]
    - [RowOk i url status]: [[OK] Row #i -> url (status status)]
    - [RowFail i url status body]:
      [[FAIL] Row #i -> url (status status) Response: body] *)
Inductive event : Type :=
| FieldsDetected (headers : list string)
| DryRun (i : nat) (url : string) (payload : pyval)
| RowError (i : nat) (message : string)
| RowOk (i : nat) (url : string) (status_code : Z)
| RowFail (i : nat) (url : string) (status_code : Z) (body : string).

(** [f"{c}"] of a cell. *)
Definition format_cell (c : cell) : string :=
  match c with
  | Some s => s
  | None => "None"
  end.

(** Truth value of an optional command-line string. *)
Definition given (o : option string) : bool :=
  match o with
  | Some s => Py.truthy_str s
  | None => false
  end.

Definition base_headers (a : args) : list (string * string) :=
  let headers := [("Content-Type", "application/json")] in
  match auth_token a with
  | Some token =>
      if Py.truthy_str token
      then dict_set headers "Authorization" ("Bearer " ++ token)%string
      else headers
  | None => headers
  end.

(** The URL of one row, optionally with [/<id>] at the end. *)
Definition row_url (a : args) (csv_headers : list string) (row : record)
  : result string :=
  match id_column a with
  | Some col =>
      if Py.truthy_str col then
        if negb (dict_has row col) then Raise (MissingIdColumn col csv_headers)
        else Ret (Py.rstrip_chars "/" (api_url a) ++ "/" ++ format_cell (row_get row col))%string
      else Ret (api_url a)
  | None => Ret (api_url a)
  end.

(** The URL as the specification words it: the base with one trailing slash
    trimmed, a slash, the value.  Compared with [row_url] below. *)
Fixpoint trim_one_slash (s : string) : string :=
  match s with
  | EmptyString => EmptyString
  | String c EmptyString => if Ascii.eqb c "/" then EmptyString else s
  | String c r => String c (trim_one_slash r)
  end.

Definition url_one_slash_trimmed (base value : string) : string :=
  (trim_one_slash base ++ "/" ++ value)%string.

(** A run of [n] slashes. *)
Fixpoint slashes (n : nat) : string :=
  match n with
  | O => EmptyString
  | S n' => String "/" (slashes n')
  end.

(** [{k.strip(): v.strip() for k, v in row.items()}], a [None] cell kept. *)
Definition clean_row (row : record) : record :=
  dict_of_pairs (map (fun kv => (Py.strip (fst kv), option_map Py.strip (snd kv))) row).

Section Loop.
Variable build_payload : record -> list string -> option string -> result pyval.
Variable a : args.
Variable send_row_put : network.
Variable csv_headers : list string.

(** The body of the loop for row number [i]: what it prints, or the
    exception that leaves the loop. *)
Definition process_row (i : nat) (row : record) : result (list event) :=
  let* url := row_url a csv_headers row in
  let cleaned_row := clean_row row in
  let* payload := build_payload cleaned_row csv_headers (resource_id a) in
  if dry_run a then Ret [DryRun i url payload]
  else
    match send_row_put i url payload (base_headers a) (timeout a) with
    | RequestException e => Ret [RowError i e]
    | Response status_code text =>
        if ((200 <=? status_code) && (status_code <? 300))%Z
        then Ret [RowOk i url status_code]
        else Ret [RowFail i url status_code (Py.take 500 text)]
    end.

(** [for i, row in enumerate(reader, start=i): ...]: everything printed,
    and the exception that ended the run, if one did. *)
Fixpoint process_rows (i : nat) (rs : list record) : list event * option exn :=
  match rs with
  | [] => ([], None)
  | row :: rest =>
      match process_row i row with
      | Raise e => ([], Some e)
      | Ret printed =>
          let (later, ended) := process_rows (S i) rest in
          (printed ++ later, ended)
      end
  end.
End Loop.

Definition main (build_payload : record -> list string -> option string -> result pyval)
    (a : args) (send_row_put : network) (f : reader) : list event * option exn :=
  match fieldnames f with
  | None => ([], Some MissingHeader)
  | Some names =>
      let csv_headers := map Py.strip names in
      let (printed, ended) :=
        process_rows build_payload a send_row_put csv_headers 1 (rows f) in
      (FieldsDetected csv_headers :: printed, ended)
  end.

End Runner.

(** ** Variant A: [CustomResourceLoader.py] *)

Module CustomResourceLoader.

Definition excluded_keys : list string :=
  ["resourceId"; "displayName"; "uniqueId"; "externalUrl"].

Definition is_excluded (k : string) : bool :=
  existsb (String.eqb k) excluded_keys.

(** [{k: v for k, v in csv_row.items()
      if k not in excluded_keys and v not in (None, "")}] *)
Definition custom_properties (csv_row : record) : list (string * pyval) :=
  map (fun kv => (fst kv, val_of_cell (snd kv)))
      (filter (fun kv => negb (is_excluded (fst kv))
                         && negb (none_or_empty (val_of_cell (snd kv))))
              csv_row).

Definition is_not_none (v : pyval) : bool :=
  match v with
  | VNone => false
  | _ => true
  end.

(** [{k: v for k, v in resource_obj.items() if v is not None}] *)
Definition drop_none (d : list (string * pyval)) : list (string * pyval) :=
  filter (fun kv => is_not_none (snd kv)) d.

Definition build_payload (csv_row : record) (csv_headers : list string)
    (resource_id_override : option string) : result pyval :=
  let resource_id := or_else resource_id_override (row_get csv_row "resourceId") in
  match resource_id with
  | None => Raise MissingResourceId
  | Some rid =>
      let display_name := row_get csv_row "displayName" in
      let unique_id := row_get csv_row "uniqueId" in
      let external_url := row_get csv_row "externalUrl" in
      let resource_obj :=
        [ ("displayName", val_of_cell display_name);
          ("uniqueId", val_of_cell unique_id);
          ("externalUrl", val_of_cell external_url);
          ("customProperties", VDict (custom_properties csv_row)) ] in
      let resource_obj := drop_none resource_obj in
      Ret (VDict [ ("resourceId", VStr rid);
                   ("resources", VList [VDict resource_obj]) ])
  end.

Definition main : Runner.args -> Runner.network -> Runner.reader
                  -> list Runner.event * option exn :=
  Runner.main build_payload.

End CustomResourceLoader.

(** ** Variant B: [VulnerabilityLoader.py] *)

Module VulnerabilityLoader.

Section Builtins.
(** [str(x)] of a float, a list or a dict is its [repr]; the model leaves
    that text open. *)
Variable py_repr : pyval -> string.

(** [str(x)] *)
Definition py_str (x : pyval) : string :=
  match x with
  | VStr s => s
  | VNone => "None"
  | VBool true => "True"
  | VBool false => "False"
  | VInt z => Py.str_of_Z z
  | _ => py_repr x
  end.

Definition looks_like (v opening closing : string) : bool :=
  Py.startswith v opening && Py.endswith v closing.

Definition coerce_value (value : pyval) : pyval :=
  match value with
  | VStr s =>
      let v := Py.strip s in
      if String.eqb (Py.lower v) "true" then VBool true
      else if String.eqb (Py.lower v) "false" then VBool false
      else if looks_like v "[" "]" || looks_like v "{" "}" then
        match Json.loads v with
        | Some parsed => parsed
        | None => VStr v
        end
      else VStr v
  | _ => value
  end.

Definition true_words : list string := ["true"; "1"; "yes"; "y"; "t"].
Definition false_words : list string := ["false"; "0"; "no"; "n"; "f"].

Definition word_in (v : string) (words : list string) : bool :=
  existsb (String.eqb v) words.

Definition parse_bool (raw_value : pyval) : result (option bool) :=
  if none_or_empty raw_value then Ret None
  else match raw_value with
       | VBool b => Ret (Some b)
       | _ =>
           let v := Py.lower (Py.strip (py_str raw_value)) in
           if word_in v true_words then Ret (Some true)
           else if word_in v false_words then Ret (Some false)
           else Raise (InvalidBoolean raw_value)
       end.

(** [[part.strip() for part in v.split(",") if part.strip()]] *)
Definition comma_parts (v : string) : list string :=
  filter Py.truthy_str (map Py.strip (Py.split "," v)).

(** The [try] block of [parse_mfa_methods]: the items of [v] read as a JSON
    array; [None] when the block falls through. *)
Definition json_array_items (v : string) : option (list pyval) :=
  if looks_like v "[" "]" then
    match Json.loads v with
    | Some (VList parsed) => Some parsed
    | _ => None
    end
  else None.

Definition parse_mfa_methods (raw_value : pyval) : option (list string) :=
  if none_or_empty raw_value then None
  else match raw_value with
       | VStr s =>
           let v := Py.strip s in
           if negb (Py.truthy_str v) then None
           else match json_array_items v with
                | Some parsed => Some (map py_str parsed)
                | None =>
                    if Py.contains v "," then Some (comma_parts v)
                    else Some [v]
                end
       | VList items => Some (map py_str items)
       | _ => Some [py_str raw_value]
       end.

(** One turn of the loop over [headers]. *)
Definition add_column (csv_row : record) (resource_obj : list (string * pyval))
    (h : string) : result (list (string * pyval)) :=
  if String.eqb h "resourceId" then Ret resource_obj
  else
    let raw_value := val_of_cell (row_get csv_row h) in
    if none_or_empty raw_value then Ret resource_obj
    else if String.eqb h "mfaMethods" then
      match parse_mfa_methods raw_value with
      | Some parsed => Ret (dict_set resource_obj h (VList (map VStr parsed)))
      | None => Ret resource_obj
      end
    else if String.eqb h "mfaEnabled" then
      let* parsed_bool := parse_bool raw_value in
      match parsed_bool with
      | Some b => Ret (dict_set resource_obj h (VBool b))
      | None => Ret resource_obj
      end
    else Ret (dict_set resource_obj h (coerce_value raw_value)).

(** [for h in headers: ...], from the object built so far. *)
Fixpoint add_columns (csv_row : record) (resource_obj : list (string * pyval))
    (headers : list string) : result (list (string * pyval)) :=
  match headers with
  | [] => Ret resource_obj
  | h :: rest =>
      let* resource_obj := add_column csv_row resource_obj h in
      add_columns csv_row resource_obj rest
  end.

Definition build_payload (csv_row : record) (headers : list string)
    (resource_id_override : option string) : result pyval :=
  let resource_id := or_else resource_id_override (row_get csv_row "resourceId") in
  match resource_id with
  | None => Raise MissingResourceId
  | Some rid =>
      if negb (Py.truthy_str rid) then Raise MissingResourceId
      else
        let* resource_obj := add_columns csv_row [] headers in
        Ret (VDict [ ("resources", VList [VDict resource_obj]);
                     ("resourceId", VStr rid) ])
  end.

Definition main : Runner.args -> Runner.network -> Runner.reader
                  -> list Runner.event * option exn :=
  Runner.main build_payload.
End Builtins.

End VulnerabilityLoader.

(** ** Predicates on payloads and data for the examples *)

(** No [None] anywhere in a value, however deep. *)
Fixpoint no_none (v : pyval) : bool :=
  match v with
  | VNone => false
  | VList items => forallb no_none items
  | VDict entries => forallb (fun kv : string * pyval => no_none (snd kv)) entries
  | _ => true
  end.

(** The value under a key is not [None]. *)
Definition not_none (kv : string * pyval) : Prop := snd kv <> VNone.

(** A text between double quotes. *)
Definition quoted (s : string) : string :=
  (String Json.quote s ++ String Json.quote "")%string.

(** Stands for [repr] where an example has to name one; no example below
    has a float, a list or a dict to print. *)
Definition unused_repr (_ : pyval) : string := "?".

(** The record of the specification's example for variant A. *)
Definition example_record : record :=
  [("resourceId", Some "r1"); ("displayName", Some ""); ("uniqueId", Some "u1")].

(** Arguments with [--id-column id] and the given base URL. *)
Definition args_with_base (base : string) : Runner.args :=
  {| Runner.api_url := base; Runner.auth_token := None;
     Runner.id_column := Some "id"; Runner.resource_id := None;
     Runner.timeout := 10; Runner.dry_run := false |}.

(** Plain arguments: no id-column, no override, requests sent. *)
Definition plain_args : Runner.args :=
  {| Runner.api_url := "https://api.example.com/res"; Runner.auth_token := None;
     Runner.id_column := None; Runner.resource_id := None;
     Runner.timeout := 10; Runner.dry_run := false |}.

(** A network where the first request times out, the second is answered with
    a 500 and the others with a 200. *)
Definition flaky_network : Runner.network :=
  fun i _ _ _ _ =>
    match i with
    | 1 => Runner.RequestException "timed out"
    | 2 => Runner.Response 500 "boom"
    | _ => Runner.Response 200 "ok"
    end.

Definition good_row : record :=
  [("resourceId", Some "r1"); ("mfaEnabled", Some " yes ")].

Definition bad_row : record :=
  [("resourceId", Some "r3"); ("mfaEnabled", Some "maybe")].



(** The text [{"a":null}]. *)
Definition a_null_json : string := ("{" ++ quoted "a" ++ ":null}")%string.


(** What variant B builds from [good_row]. *)
Definition good_payload : pyval :=
  VDict [ ("resources", VList [VDict [("mfaEnabled", VBool true)]]);
          ("resourceId", VStr "r1") ].

(** ** Predicates for the loops *)

(** Whether the loop of variant B stores something under the column [h]: the
    column is not [resourceId], its cell is a non-empty string, and for
    [mfaMethods] the cell is not blank. *)
Definition column_is_sent (csv_row : record) (h : string) : bool :=
  negb (String.eqb h "resourceId") &&
  match row_get csv_row h with
  | Some s =>
      Py.truthy_str s &&
      (negb (String.eqb h "mfaMethods") || Py.truthy_str (Py.strip s))
  | None => false
  end.

(** The row number a printed line is about; the line of the detected
    fields is about no row. *)
Definition event_row (e : Runner.event) : option nat :=
  match e with
  | Runner.FieldsDetected _ => None
  | Runner.DryRun i _ _ => Some i
  | Runner.RowError i _ => Some i
  | Runner.RowOk i _ _ => Some i
  | Runner.RowFail i _ _ _ => Some i
  end.



(** A row for variant B with a column that the header list leaves out. *)
Definition typed_row : record :=
  [ ("resourceId", Some "r1"); ("status", Some "ACTIVE");
    ("mfaEnabled", Some "Yes"); ("mfaMethods", Some "PUSH_PROMPT,SMS");
    ("note", Some ""); ("hidden", Some "x") ].

Definition typed_headers : list string :=
  ["resourceId"; "status"; "mfaEnabled"; "mfaMethods"; "note"].

(** What variant B builds from [typed_row] over [typed_headers]. *)
Definition typed_payload : pyval :=
  VDict [ ("resources",
           VList [VDict [ ("status", VStr "ACTIVE"); ("mfaEnabled", VBool true);
                          ("mfaMethods", VList [VStr "PUSH_PROMPT"; VStr "SMS"]) ]]);
          ("resourceId", VStr "r1") ].

(** Arguments of a dry run. *)
Definition dry_args : Runner.args :=
  {| Runner.api_url := "https://api.example.com/res"; Runner.auth_token := None;
     Runner.id_column := None; Runner.resource_id := None;
     Runner.timeout := 10; Runner.dry_run := true |}.

(** Arguments with a bearer token. *)
Definition token_args : Runner.args :=
  {| Runner.api_url := "https://api.example.com/res";
     Runner.auth_token := Some "s3cret";
     Runner.id_column := None; Runner.resource_id := None;
     Runner.timeout := 10; Runner.dry_run := false |}.

(** A file of two rows for variant B. *)
Definition two_rows_file : Runner.reader :=
  {| Runner.fieldnames := Some ["resourceId"; "mfaEnabled"];
     Runner.rows := [good_row; good_row] |}.

(** A network that never answers. *)
Definition dead_network : Runner.network :=
  fun _ _ _ _ _ => Runner.RequestException "unreachable".

(** * Properties *)

(** ** The string built-ins *)

Module PyFacts.
Import Py.


Lemma append_assoc (a b c : string) : ((a ++ b) ++ c)%string = (a ++ b ++ c)%string.
Proof. induction a as [|x a IH]; simpl; [reflexivity | now rewrite IH]. Qed.

Lemma length_append (a b : string) :
  String.length (a ++ b) = String.length a + String.length b.
Proof. induction a as [|x a IH]; simpl; [reflexivity | now rewrite IH]. Qed.

Lemma eqb_neq_empty (s : string) : s <> "" -> truthy_str s = true.
Proof. destruct s; [congruence | reflexivity]. Qed.


Section Strip.
Variable p : ascii -> bool.

Local Abbreviation rstripped := (Py.rstripped p).

Lemma rstrip_set_cons (c : ascii) (r : string) :
  rstrip_set p (String c r) =
  match rstrip_set p r with
  | EmptyString => if p c then EmptyString else String c EmptyString
  | r' => String c r'
  end.
Proof. reflexivity. Qed.

Lemma rstrip_set_idem (s : string) : rstripped (rstrip_set p s).
Proof.
  unfold rstripped.
  induction s as [|c r IH]; [reflexivity|].
  rewrite rstrip_set_cons.
  destruct (rstrip_set p r) as [|d r'] eqn:E.
  - destruct (p c) eqn:Pc; [reflexivity|]. simpl. now rewrite Pc.
  - rewrite rstrip_set_cons, IH. reflexivity.
Qed.

Lemma rstripped_tail (c : ascii) (r : string) :
  rstripped (String c r) -> r <> "" -> rstripped r.
Proof.
  unfold rstripped. rewrite rstrip_set_cons.
  destruct (rstrip_set p r) as [|d r'] eqn:E.
  - intros H Hr. destruct (p c); inversion H; subst; congruence.
  - intros H _. now inversion H.
Qed.

Lemma rstripped_all_strippable (r : string) :
  rstripped r -> lstrip_set p r = "" -> r = "".
Proof.
  induction r as [|c r IH]; [reflexivity|].
  intros H E. simpl in E. destruct (p c) eqn:Pc; [|discriminate].
  destruct r as [|d r'].
  - unfold rstripped in H. simpl in H. rewrite Pc in H. discriminate.
  - assert (String d r' = "") as A; [|discriminate].
    apply IH; [|exact E].
    apply (rstripped_tail c); [exact H | discriminate].
Qed.




(** A text with nothing to strip at its right end does not end with a
    run of stripped characters. *)
Lemma rstripped_no_tail (pre r : string) :
  rstripped (pre ++ r) -> lstrip_set p r = "" -> r = "".
Proof.
  induction pre as [|c pre IH]; simpl; intros H E.
  - now apply rstripped_all_strippable.
  - destruct (pre ++ r)%string as [|d t] eqn:E'.
    + destruct pre; simpl in E'; [exact E' | discriminate].
    + apply IH; [|exact E].
      apply (rstripped_tail c); [exact H | discriminate].
Qed.
End Strip.




Lemma prefix_split (p s : string) :
  String.prefix p s = true -> s = (p ++ drop (String.length p) s)%string.
Proof.
  revert s. induction p as [|c p IH]; intros s H; [reflexivity|].
  destruct s as [|d s]; simpl in H; [discriminate|].
  destruct (ascii_dec c d) as [->|]; [|discriminate].
  simpl. f_equal. now apply IH.
Qed.

Lemma startswith_cons (c d : ascii) (r : string) :
  startswith (String d r) (String c "") = Ascii.eqb d c.
Proof.
  unfold startswith. simpl.
  destruct (ascii_dec c d) as [->|N].
  - rewrite Ascii.eqb_refl. now destruct r.
  - symmetry. apply Ascii.eqb_neq. congruence.
Qed.



Lemma length_drop (n : nat) (s : string) :
  String.length (drop n s) = String.length s - n.
Proof.
  revert s. induction n as [|n IH]; intros [|c s]; simpl; try reflexivity.
  apply IH.
Qed.

Lemma length_lstrip_set (p : ascii -> bool) (s : string) :
  String.length (lstrip_set p s) <= String.length s.
Proof.
  induction s as [|c s IH]; simpl; [lia|].
  destruct (p c); simpl; lia.
Qed.

(** [s[:n]] is a prefix of [s] of at most [n] characters. *)
Lemma take_prefix (n : nat) (s : string) :
  String.prefix (take n s) s = true /\ String.length (take n s) <= n.
Proof.
  unfold take. revert s. induction n as [|n IH]; intros [|c s]; simpl;
    try (split; [reflexivity | lia]).
  destruct (IH s) as [P L]. destruct (ascii_dec c c); [|congruence].
  split; [exact P | lia].
Qed.


Lemma split_nonempty (sep : ascii) (s : string) : split sep s <> [].
Proof.
  induction s as [|c s IH]; simpl; [discriminate|].
  destruct (Ascii.eqb c sep); [discriminate|].
  destruct (split sep s); [contradiction | discriminate].
Qed.

(** Joining the pieces of a split with the separator gives the text back. *)
Lemma join_split (sep : ascii) (s : string) :
  join (String sep "") (split sep s) = s.
Proof.
  induction s as [|c s IH]; [reflexivity|].
  pose proof (split_nonempty sep s) as N.
  simpl split. destruct (Ascii.eqb_spec c sep) as [->|_].
  - destruct (split sep s) as [|p ps]; [contradiction|].
    change (join (String sep "") ("" :: p :: ps))
      with (String sep (join (String sep "") (p :: ps))).
    now rewrite IH.
  - destruct (split sep s) as [|p ps]; [contradiction|].
    rewrite <- IH. destruct ps; reflexivity.
Qed.


End PyFacts.

(** ** Dictionaries *)

Section DictFacts.
Context {V : Type}.
Implicit Types (d : list (string * V)) (k : string) (v : V).

Lemma dict_get_In d k v : dict_get d k = Some v -> In (k, v) d.
Proof.
  induction d as [|[k' v'] d IH]; simpl; [discriminate|].
  destruct (String.eqb_spec k k') as [->|].
  - intros [= ->]. now left.
  - intros H. right. now apply IH.
Qed.

Lemma dict_get_set_same d k v : dict_get (dict_set d k v) k = Some v.
Proof.
  induction d as [|[k' v'] d IH]; simpl.
  - now rewrite String.eqb_refl.
  - destruct (String.eqb_spec k k') as [->|N]; simpl.
    + now rewrite String.eqb_refl.
    + destruct (String.eqb_spec k k'); [contradiction | exact IH].
Qed.

Lemma dict_get_set_other d k k' v :
  k' <> k -> dict_get (dict_set d k v) k' = dict_get d k'.
Proof.
  intros N. induction d as [|[k0 v0] d IH]; simpl.
  - destruct (String.eqb_spec k' k); [contradiction | reflexivity].
  - destruct (String.eqb_spec k k0) as [->|N0]; simpl.
    + destruct (String.eqb_spec k' k0); [contradiction | reflexivity].
    + destruct (String.eqb_spec k' k0); [reflexivity | exact IH].
Qed.


End DictFacts.

(** ** Variant A *)

Module CustomResourceFacts.
Import CustomResourceLoader.

(** The payload variant A builds, and when. *)
Lemma build_payload_inv (csv_row : record) (csv_headers : list string)
    (resource_id_override : option string) (payload : pyval) :
  build_payload csv_row csv_headers resource_id_override = Ret payload ->
  exists rid,
    or_else resource_id_override (row_get csv_row "resourceId") = Some rid /\
    payload =
      VDict [ ("resourceId", VStr rid);
              ("resources",
               VList [VDict (drop_none
                 [ ("displayName", val_of_cell (row_get csv_row "displayName"));
                   ("uniqueId", val_of_cell (row_get csv_row "uniqueId"));
                   ("externalUrl", val_of_cell (row_get csv_row "externalUrl"));
                   ("customProperties", VDict (custom_properties csv_row)) ])]) ].
Proof.
  unfold build_payload.
  destruct (or_else resource_id_override (row_get csv_row "resourceId")) as [rid|];
    [|discriminate].
  intros [= <-]. now exists rid.
Qed.

Lemma custom_properties_In (csv_row : record) (k : string) (v : pyval) :
  In (k, v) (custom_properties csv_row) <->
  exists s, v = VStr s /\ s <> "" /\ is_excluded k = false /\ In (k, Some s) csv_row.
Proof.
  unfold custom_properties. rewrite in_map_iff. split.
  - intros [[k' c] [E H]]. simpl in E. inversion E; subst. clear E.
    apply filter_In in H. destruct H as [H F]. simpl in F.
    apply andb_true_iff in F. destruct F as [F1 F2].
    apply negb_true_iff in F1. apply negb_true_iff in F2.
    destruct c as [s|]; [|discriminate].
    exists s. repeat split; try assumption.
    intros ->. discriminate.
  - intros [s [-> [N [X H]]]]. exists (k, Some s). split; [reflexivity|].
    apply filter_In. split; [exact H|]. simpl. rewrite X. simpl.
    destruct s; [congruence | reflexivity].
Qed.

Lemma custom_properties_empty (csv_row : record) :
  (forall k c, In (k, c) csv_row -> is_excluded k = false -> c = None \/ c = Some "") ->
  custom_properties csv_row = [].
Proof.
  intros H. destruct (custom_properties csv_row) as [|[k v] l] eqn:E; [reflexivity|].
  assert (In (k, v) (custom_properties csv_row)) as I by (rewrite E; now left).
  apply custom_properties_In in I. destruct I as [s [_ [N [X I]]]].
  destruct (H _ _ I X) as [A|A]; congruence.
Qed.

Ltac cells csv_row :=
  destruct (row_get csv_row "displayName");
  destruct (row_get csv_row "uniqueId");
  destruct (row_get csv_row "externalUrl").

(** C10.  Whenever variant A builds a payload, [resources[0]] has the key
    [customProperties]; its value is the dict of the non-excluded columns
    with a non-empty value, which is the empty dict when the record has no
    such column. *)
Theorem custom_properties_always_present
    (csv_row : record) (csv_headers : list string)
    (resource_id_override : option string) (payload : pyval) :
  build_payload csv_row csv_headers resource_id_override = Ret payload ->
  exists resource_obj,
    resources0 payload = Some (VDict resource_obj) /\
    dict_get resource_obj "customProperties"
      = Some (VDict (custom_properties csv_row)) /\
    ((forall k c, In (k, c) csv_row -> is_excluded k = false ->
                  c = None \/ c = Some "") ->
     dict_get resource_obj "customProperties" = Some (VDict [])).
Proof.
  intros H. apply build_payload_inv in H. destruct H as [rid [_ ->]].
  eexists. split; [reflexivity|].
  assert (forall l, l = custom_properties csv_row ->
    dict_get (drop_none
      [ ("displayName", val_of_cell (row_get csv_row "displayName"));
        ("uniqueId", val_of_cell (row_get csv_row "uniqueId"));
        ("externalUrl", val_of_cell (row_get csv_row "externalUrl"));
        ("customProperties", VDict l) ]) "customProperties" = Some (VDict l)) as G.
  { intros l _. cells csv_row; reflexivity. }
  split.
  - now apply G.
  - intros E. rewrite (G _ eq_refl). now rewrite (custom_properties_empty _ E).
Qed.

Lemma custom_properties_always_present_witness :
  exists resource_obj,
    resources0 (VDict [ ("resourceId", VStr "r1");
                        ("resources", VList [VDict [("customProperties", VDict [])]]) ])
      = Some (VDict resource_obj) /\
    dict_get resource_obj "customProperties"
      = Some (VDict (custom_properties [("resourceId", Some "r1"); ("team", Some "")])) /\
    ((forall k c, In (k, c) [("resourceId", Some "r1"); ("team", Some "")] ->
                  is_excluded k = false -> c = None \/ c = Some "") ->
     dict_get resource_obj "customProperties" = Some (VDict [])).
Proof.
  apply (custom_properties_always_present
           [("resourceId", Some "r1"); ("team", Some "")]
           ["resourceId"; "team"] None).
  reflexivity.
Defined.




End CustomResourceFacts.

(** ** The driver: URLs and the loop over the rows *)

Module RunnerFacts.
Import Py PyFacts Runner.

Local Open Scope string_scope.

Lemma rstrip_slashes (s : string) :
  exists n, s = rstrip_chars "/" s ++ slashes n.
Proof.
  unfold rstrip_chars. induction s as [|c r [n IH]]; [now exists 0|].
  rewrite rstrip_set_cons.
  destruct (rstrip_set _ r) as [|d r'] eqn:E.
  - simpl in IH. simpl. rewrite orb_false_r.
    destruct (Ascii.eqb_spec c "/") as [->|N].
    + exists (S n). simpl. now f_equal.
    + exists n. simpl. now f_equal.
  - exists n. simpl. f_equal. exact IH.
Qed.

Lemma rstrip_no_slash (s x : string) : rstrip_chars "/" s <> x ++ "/".
Proof.
  unfold rstrip_chars. intros H.
  assert (rstripped (fun c => char_in c "/") (x ++ "/")) as R
    by (rewrite <- H; apply rstrip_set_idem).
  assert ("/" = "") as A; [|discriminate].
  apply (rstripped_no_tail _ x "/" R). reflexivity.
Qed.

Lemma rstrip_is_trim_one (s : string) :
  (forall x, trim_one_slash s <> x ++ "/") ->
  rstrip_chars "/" s = trim_one_slash s.
Proof.
  unfold rstrip_chars. induction s as [|c r IH]; intros H; [reflexivity|].
  rewrite rstrip_set_cons.
  destruct r as [|d r'].
  - simpl. now rewrite orb_false_r.
  - assert (forall x, trim_one_slash (String d r') <> x ++ "/") as H'.
    { intros x E. apply (H (String c x)).
      change (trim_one_slash (String c (String d r')))
        with (String c (trim_one_slash (String d r'))).
      rewrite E. reflexivity. }
    rewrite (IH H').
    change (trim_one_slash (String c (String d r')))
      with (String c (trim_one_slash (String d r'))).
    destruct (trim_one_slash (String d r')) as [|e t] eqn:T; [|reflexivity].
    simpl. rewrite orb_false_r.
    destruct (Ascii.eqb_spec c "/") as [->|N]; [|reflexivity].
    exfalso. apply (H ""). change (trim_one_slash (String "/" (String d r')))
      with (String "/"%char (trim_one_slash (String d r'))).
    rewrite T. reflexivity.
Qed.

(** C7 as stated fails: only one of two trailing slashes would be trimmed,
    where the driver trims both. *)
Lemma two_trailing_slashes :
  row_url (args_with_base "https://api.example.com/res//") ["id"] [("id", Some "42")] = Ret "https://api.example.com/res/42" /\
  url_one_slash_trimmed "https://api.example.com/res//" "42"
    = "https://api.example.com/res//42" /\
  row_url (args_with_base "https://api.example.com/res//") ["id"] [("id", Some "42")]
    <> Ret (url_one_slash_trimmed "https://api.example.com/res//" "42").
Proof. repeat split. discriminate. Qed.

(** C7, amended.  With an id-column configured (a non-empty name), the URL
    of a row is the base URL with all its trailing slashes trimmed, a slash,
    and the row's cell for that column as it is in the file ([None] for a
    missing cell); when the base has at most one trailing slash this is the
    base with one trailing slash trimmed, a slash, and the cell.  When the
    row has no such column, [MissingIdColumn] is raised. *)
Theorem row_url_with_id_column
    (a : args) (csv_headers : list string) (row : record) (col : string) :
  id_column a = Some col -> col <> "" ->
  (dict_has row col = false ->
   row_url a csv_headers row = Raise (MissingIdColumn col csv_headers)) /\
  (forall c, dict_get row col = Some c ->
     row_url a csv_headers row
       = Ret (rstrip_chars "/" (api_url a) ++ "/" ++ format_cell c) /\
     (exists n, api_url a = rstrip_chars "/" (api_url a) ++ slashes n) /\
     (forall x, rstrip_chars "/" (api_url a) <> x ++ "/") /\
     ((forall x, trim_one_slash (api_url a) <> x ++ "/") ->
      row_url a csv_headers row
        = Ret (url_one_slash_trimmed (api_url a) (format_cell c)))).
Proof.
  intros Hc Hn. unfold row_url. rewrite Hc.
  rewrite (eqb_neq_empty _ Hn). split.
  - intros ->. reflexivity.
  - intros c G. unfold dict_has, row_get. rewrite G. simpl.
    split; [reflexivity|]. split; [apply rstrip_slashes|].
    split; [apply rstrip_no_slash|].
    intros T. unfold url_one_slash_trimmed. now rewrite (rstrip_is_trim_one _ T).
Qed.

Lemma row_url_with_id_column_witness :
  row_url (args_with_base "https://api.example.com/res/") ["id"] [("id", Some "42")]
    = Ret "https://api.example.com/res/42" /\
  row_url (args_with_base "https://api.example.com/res/") ["id"] [("name", Some "x")]
    = Raise (MissingIdColumn "id" ["id"]).
Proof.
  split.
  - destruct (proj2 (row_url_with_id_column
                       (args_with_base "https://api.example.com/res/")
                       ["id"] [("id", Some "42")] "id"
                       eq_refl ltac:(discriminate)) (Some "42") eq_refl)
      as [H _].
    exact H.
  - apply (proj1 (row_url_with_id_column
                    (args_with_base "https://api.example.com/res/")
                    ["id"] [("name", Some "x")] "id"
                    eq_refl ltac:(discriminate))).
    reflexivity.
Defined.

(** The base of the specification's example, with and without the slash. *)
Example row_url_example :
  forall base, In base ["https://api.example.com/res"; "https://api.example.com/res/"] ->
  row_url (args_with_base base) ["id"] [("id", Some "42")]
  = Ret "https://api.example.com/res/42".
Proof. intros base [<-|[<-|[]]]; reflexivity. Qed.

(** Without [--id-column], or with an empty one, the URL is the base. *)
Lemma row_url_without_id_column
    (a : args) (csv_headers : list string) (row : record) :
  given (id_column a) = false -> row_url a csv_headers row = Ret (api_url a).
Proof.
  unfold given, row_url. destruct (id_column a) as [col|]; [|reflexivity].
  now intros ->.
Qed.

Section LoopFacts.
Variable build_payload : record -> list string -> option string -> result pyval.
Variable a : args.
Variable send_row_put : network.
Variable csv_headers : list string.

Local Open Scope list_scope.

Local Abbreviation process_row :=
  (process_row build_payload a send_row_put csv_headers).
Local Abbreviation process_rows :=
  (process_rows build_payload a send_row_put csv_headers).

Lemma process_rows_raise (i : nat) (row : record) (rest : list record) (e : exn) :
  process_row i row = Raise e -> process_rows i (row :: rest) = ([], Some e).
Proof. intros H. simpl. now rewrite H. Qed.

Lemma process_rows_ret (i : nat) (row : record) (rest : list record)
    (printed : list event) :
  process_row i row = Ret printed ->
  process_rows i (row :: rest)
    = (printed ++ fst (process_rows (S i) rest), snd (process_rows (S i) rest)).
Proof.
  intros H. simpl. rewrite H. now destruct (process_rows (S i) rest).
Qed.

(** The rows after a run of rows that all went through. *)
Lemma process_rows_app (i : nat) (before rest : list record) (printed : list event) :
  process_rows i before = (printed, None) ->
  process_rows i (before ++ rest)
    = (printed ++ fst (process_rows (i + length before) rest),
       snd (process_rows (i + length before) rest)).
Proof.
  revert i printed. induction before as [|row before IH]; intros i printed H.
  - simpl in H. inversion H; subst. simpl. rewrite Nat.add_0_r.
    now destruct (process_rows i rest).
  - simpl in H. simpl app.
    destruct (process_row i row) as [here|e] eqn:R; [|discriminate].
    destruct (process_rows (S i) before) as [later ended] eqn:L.
    inversion H; subst.
    rewrite (process_rows_ret _ _ _ _ R), (IH _ _ L).
    simpl. rewrite <- Nat.add_succ_r. now rewrite app_assoc.
Qed.

(** C8.  In the loop over the rows:
    - a [RequestException] from the PUT of a row is printed as that row's
      error line and the loop goes on with the next row;
    - an exception from [build_payload] (missing [resourceId], invalid
      boolean) leaves the loop at that row: what was printed for the rows
      before stays, nothing is printed for this row or any later one, and
      the run ends with that exception;
    - a response with a status outside 200..299 is no exception: it is
      printed as a failure line with the first 500 characters of the body,
      and the loop goes on. *)
Theorem per_row_failures (i : nat) (row : record) (rest : list record) (url : string) :
  row_url a csv_headers row = Ret url ->
  (forall payload message,
      build_payload (clean_row row) csv_headers (resource_id a) = Ret payload ->
      dry_run a = false ->
      send_row_put i url payload (base_headers a) (timeout a)
        = RequestException message ->
      process_rows i (row :: rest)
        = (RowError i message :: fst (process_rows (S i) rest),
           snd (process_rows (S i) rest))) /\
  (forall e,
      build_payload (clean_row row) csv_headers (resource_id a) = Raise e ->
      process_rows i (row :: rest) = ([], Some e) /\
      forall before printed,
        process_rows (i - length before) before = (printed, None) ->
        length before <= i ->
        process_rows (i - length before) (before ++ row :: rest)
          = (printed, Some e)) /\
  (forall payload status_code text,
      build_payload (clean_row row) csv_headers (resource_id a) = Ret payload ->
      dry_run a = false ->
      send_row_put i url payload (base_headers a) (timeout a)
        = Response status_code text ->
      (status_code < 200 \/ 300 <= status_code)%Z ->
      process_rows i (row :: rest)
        = (RowFail i url status_code (take 500 text)
             :: fst (process_rows (S i) rest),
           snd (process_rows (S i) rest)) /\
      String.prefix (take 500 text) text = true /\
      String.length (take 500 text) <= 500).
Proof.
  intros U. split; [|split].
  - intros payload message B D S.
    apply (process_rows_ret i row rest [RowError i message]).
    unfold Runner.process_row. rewrite U. simpl. rewrite B. simpl.
    now rewrite D, S.
  - intros e B.
    assert (process_row i row = Raise e) as R.
    { unfold Runner.process_row. rewrite U. simpl. now rewrite B. }
    split; [now apply process_rows_raise|].
    intros before printed P L.
    rewrite (process_rows_app _ _ _ _ P).
    replace (i - length before + length before) with i by lia.
    rewrite (process_rows_raise _ _ _ _ R). simpl. now rewrite app_nil_r.
  - intros payload status_code text B D S O.
    split; [|apply take_prefix].
    apply (process_rows_ret i row rest [RowFail i url status_code (take 500 text)]).
    unfold Runner.process_row. rewrite U. simpl. rewrite B. simpl.
    rewrite D, S.
    replace ((200 <=? status_code)%Z && (status_code <? 300)%Z) with false;
      [reflexivity|].
    symmetry. apply andb_false_iff.
    destruct O; [left; apply Z.leb_gt | right; apply Z.ltb_ge]; lia.
Qed.

(** A 2xx response is the success line. *)
Lemma process_row_ok (i : nat) (row : record) (url : string) (payload : pyval)
    (status_code : Z) (text : string) :
  row_url a csv_headers row = Ret url ->
  build_payload (clean_row row) csv_headers (resource_id a) = Ret payload ->
  dry_run a = false ->
  send_row_put i url payload (base_headers a) (timeout a)
    = Response status_code text ->
  (200 <= status_code < 300)%Z ->
  process_row i row = Ret [RowOk i url status_code].
Proof.
  intros U B D S O. unfold Runner.process_row.
  rewrite U. simpl. rewrite B. simpl. rewrite D, S.
  replace ((200 <=? status_code)%Z && (status_code <? 300)%Z) with true;
    [reflexivity|].
  symmetry. apply andb_true_iff. split; [apply Z.leb_le | apply Z.ltb_lt]; lia.
Qed.

(** A dry run prints the preview and sends nothing: the outcome does not
    depend on the network. *)
Lemma process_row_dry_run (i : nat) (row : record) (url : string) (payload : pyval) :
  row_url a csv_headers row = Ret url ->
  build_payload (clean_row row) csv_headers (resource_id a) = Ret payload ->
  dry_run a = true ->
  process_row i row = Ret [DryRun i url payload].
Proof.
  intros U B D. unfold Runner.process_row.
  rewrite U. simpl. rewrite B. simpl. now rewrite D.
Qed.
End LoopFacts.

End RunnerFacts.

(** ** The JSON decoder *)

Module JsonFacts.
Import Py PyFacts Json.

Local Open Scope string_scope.

Lemma eats_cons (c : ascii) (s : string) : eats (String c s) s.
Proof. split; [now exists (String c "") | simpl; lia]. Qed.

Lemma eats_cons_l (c : ascii) (s r : string) : eats s r -> eats (String c s) r.
Proof.
  intros [[pre ->] L]. split; [now exists (String c pre) | simpl; lia].
Qed.

Lemma lstrip_set_split (p : ascii -> bool) (s : string) :
  exists w, s = w ++ lstrip_set p s.
Proof.
  induction s as [|c s [w IH]]; [now exists ""|].
  simpl. destruct (p c); [|now exists ""].
  exists (String c w). simpl. now f_equal.
Qed.

Lemma eats_skip_ws_r (s r : string) : eats s r -> eats s (skip_ws r).
Proof.
  intros [[pre ->] L]. destruct (lstrip_set_split is_ws r) as [w E].
  split.
  - exists (pre ++ w). rewrite append_assoc. unfold skip_ws. now rewrite <- E.
  - pose proof (length_lstrip_set is_ws r). unfold skip_ws. lia.
Qed.

Lemma eats_skip_ws_l (s r : string) : eats (skip_ws s) r -> eats s r.
Proof.
  intros [[pre E] L]. destruct (lstrip_set_split is_ws s) as [w E'].
  split.
  - exists (w ++ pre). rewrite append_assoc. unfold skip_ws in E. now rewrite <- E.
  - pose proof (length_lstrip_set is_ws s). unfold skip_ws in L. lia.
Qed.

Lemma eats_trans (s r t : string) : eats s r -> eats r t -> eats s t.
Proof.
  intros [[p1 ->] L1] [[p2 ->] L2]. split.
  - exists (p1 ++ p2). now rewrite append_assoc.
  - lia.
Qed.

Lemma eats_drop (n : nat) (p s : string) :
  String.prefix p s = true -> n = String.length p -> 0 < n -> eats s (drop n s).
Proof.
  intros H -> L. split.
  - exists p. now apply prefix_split.
  - rewrite length_drop.
    assert (String.length s = String.length p + String.length (drop (String.length p) s)) as E
      by (rewrite <- length_append; f_equal; now apply prefix_split).
    lia.
Qed.

Lemma pmap_parsed {A B : Type} (f : A -> B) (p : parse A) (y : B) (r : string) :
  pmap f p = Parsed y r -> exists x, p = Parsed x r /\ y = f x.
Proof.
  destruct p as [x r'| |]; simpl; try discriminate.
  intros [= <- <-]. now exists x.
Qed.

Lemma hex4_eats (s : string) (u : N) (r : string) :
  hex4 s = Some (u, r) -> eats s r.
Proof.
  destruct s as [|a [|b [|c [|d t]]]]; simpl; try discriminate.
  destruct (hex_value a), (hex_value b), (hex_value c), (hex_value d);
    try discriminate.
  intros [= _ <-]. do 3 apply eats_cons_l. apply eats_cons.
Qed.

Lemma scanstring_eats (fuel : nat) (s x r : string) :
  scanstring fuel s = Parsed x r -> eats s r.
Proof.
  revert s x r. induction fuel as [|fuel IH]; intros s x r; cbn [scanstring];
    [discriminate|].
  destruct s as [|c s]; [discriminate|].
  destruct (Ascii.eqb c quote).
  { intros [= _ <-]. apply eats_cons. }
  destruct (Ascii.eqb c "\").
  - destruct s as [|e s1]; [discriminate|].
    destruct (Ascii.eqb e "u").
    + destruct (hex4 s1) as [[u r2]|] eqn:H1; [|discriminate].
      apply hex4_eats in H1.
      assert (forall y, pmap (append y) (scanstring fuel r2) = Parsed x r ->
                        eats (String c (String e s1)) r) as Plain.
      { intros y H. apply pmap_parsed in H. destruct H as [x' [H _]].
        apply IH in H. do 2 apply eats_cons_l. now apply (eats_trans _ r2). }
      destruct (is_high_surrogate u && startswith r2 "\u") eqn:Hs; [|apply Plain].
      destruct (hex4 (drop 2 r2)) as [[u2 r4]|] eqn:H2; [|discriminate].
      destruct (is_low_surrogate u2); [|apply Plain].
      intros H. apply pmap_parsed in H. destruct H as [x' [H _]].
      apply IH in H. apply hex4_eats in H2.
      apply andb_true_iff in Hs. destruct Hs as [_ Hs].
      do 2 apply eats_cons_l. apply (eats_trans _ r2); [exact H1|].
      apply (eats_trans _ (drop 2 r2)); [|now apply (eats_trans _ r4)].
      apply (eats_drop 2 "\u"); [exact Hs | reflexivity | lia].
    + destruct (backslash e); [|discriminate].
      intros H. apply pmap_parsed in H. destruct H as [x' [H _]].
      apply IH in H. apply eats_cons_l. now apply eats_cons_l.
  - destruct (nat_of_ascii c <? 32)%nat; [discriminate|].
    intros H. apply pmap_parsed in H. destruct H as [x' [H _]].
    apply IH in H. now apply eats_cons_l.
Qed.

Lemma digits_split (s ds r : string) : digits s = (ds, r) -> s = ds ++ r.
Proof.
  revert ds r. induction s as [|c s IH]; intros ds r; simpl.
  - now intros [= <- <-].
  - destruct (is_digit c); [|now intros [= <- <-]].
    destruct (digits s) as [ds' r'] eqn:E. intros [= <- <-].
    simpl. f_equal. now apply IH.
Qed.

Lemma match_integer_split (s i r : string) :
  match_integer s = Some (i, r) -> s = i ++ r /\ i <> "".
Proof.
  unfold match_integer.
  assert (forall sign s1, s = sign ++ s1 ->
    match s1 with
    | String c r0 =>
        if Ascii.eqb c "0" then Some (sign ++ "0", r0)
        else if is_digit c then
          let (ds, r') := digits r0 in Some (sign ++ String c ds, r')
        else None
    | EmptyString => None
    end = Some (i, r) -> s = i ++ r /\ i <> "") as G.
  { intros sign s1 -> H. destruct s1 as [|c r0]; [discriminate|].
    destruct (Ascii.eqb_spec c "0") as [->|_].
    - inversion H; subst. split; [now rewrite append_assoc|].
      destruct sign; discriminate.
    - destruct (is_digit c); [|discriminate].
      destruct (digits r0) as [ds r'] eqn:D. inversion H; subst.
      apply digits_split in D. subst. split.
      + now rewrite append_assoc.
      + destruct sign; discriminate. }
  destruct s as [|c s0]; [apply (G "" ""); reflexivity|].
  destruct (Ascii.eqb_spec c "-") as [->|_].
  - apply (G "-" s0). reflexivity.
  - apply (G "" (String c s0)). reflexivity.
Qed.

Lemma match_frac_split (s x r : string) : match_frac s = (x, r) -> s = x ++ r.
Proof.
  unfold match_frac. destruct s as [|c s0]; [now intros [= <- <-]|].
  destruct (Ascii.eqb c "."); [|now intros [= <- <-]].
  destruct (digits s0) as [ds r'] eqn:D. apply digits_split in D.
  destruct ds; intros [= <- <-]; [reflexivity|]. now rewrite D.
Qed.

Lemma match_exp_split (s x r : string) : match_exp s = (x, r) -> s = x ++ r.
Proof.
  unfold match_exp. destruct s as [|c s0]; [now intros [= <- <-]|].
  destruct (Ascii.eqb c "e" || Ascii.eqb c "E"); [|now intros [= <- <-]].
  assert (forall sign r1, s0 = sign ++ r1 ->
    match digits r1 with
    | (EmptyString, _) => (EmptyString, String c s0)
    | (ds, r') => (String c (sign ++ ds), r')
    end = (x, r) -> String c s0 = x ++ r) as G.
  { intros sign r1 -> H. destruct (digits r1) as [ds r'] eqn:D.
    apply digits_split in D. subst r1.
    destruct ds; inversion H; subst; [reflexivity|].
    simpl. now rewrite append_assoc. }
  destruct s0 as [|d r0]; [apply (G "" ""); reflexivity|].
  destruct (Ascii.eqb d "-" || Ascii.eqb d "+").
  - apply (G (String d "") r0). reflexivity.
  - apply (G "" (String d r0)). reflexivity.
Qed.

Lemma match_number_eats (s : string) (v : pyval) (r : string) :
  match_number s = Some (v, r) -> eats s r /\ is_number v.
Proof.
  unfold match_number.
  destruct (match_integer s) as [[i r0]|] eqn:I; [|discriminate].
  destruct (match_frac r0) as [fr r1] eqn:F.
  destruct (match_exp r1) as [ex r2] eqn:X.
  apply match_integer_split in I. destruct I as [-> Ni].
  apply match_frac_split in F. apply match_exp_split in X. subst.
  intros H.
  assert (r = r2 /\ is_number v) as [-> Nv].
  { destruct fr, ex; inversion H; subst; simpl; auto. }
  split; [|exact Nv]. split.
  - exists (i ++ fr ++ ex). now rewrite !append_assoc.
  - rewrite !length_append. destruct i; [congruence | simpl; lia].
Qed.

Lemma closes_eats (s pre r : string) : s = pre ++ "]" ++ r -> eats s r.
Proof.
  intros ->. split.
  - exists (pre ++ "]"). now rewrite append_assoc.
  - rewrite !length_append. simpl. lia.
Qed.

Lemma skip_ws_split (s : string) : exists w, s = w ++ skip_ws s.
Proof. apply lstrip_set_split. Qed.

Section ContainerFacts.
Variable scan : string -> parse pyval.
Hypothesis scan_eats : forall s v r, scan s = Parsed v r -> eats s r.

(** A successful scan of the items of an array stops right after the
    closing bracket. *)
Lemma array_items_closes (n : nat) (s : string) (xs : list pyval) (r : string) :
  array_items scan n s = Parsed xs r -> exists pre, s = pre ++ "]" ++ r.
Proof.
  revert s xs r. induction n as [|n IH]; intros s xs r; cbn [array_items];
    [discriminate|].
  destruct (scan s) as [v r0| |] eqn:Sc; try discriminate.
  apply scan_eats in Sc. destruct Sc as [[pre0 ->] _].
  destruct (skip_ws_split r0) as [w W].
  destruct (skip_ws r0) as [|c r'] eqn:K; [discriminate|].
  destruct (Ascii.eqb_spec c "]") as [->|_].
  { intros [= _ <-]. exists (pre0 ++ w). rewrite W.
    now rewrite !append_assoc. }
  destruct (Ascii.eqb_spec c ",") as [->|_]; [|discriminate].
  intros H. apply pmap_parsed in H. destruct H as [xs' [H _]].
  apply IH in H. destruct H as [pre1 H].
  destruct (skip_ws_split r') as [w' W'].
  exists (pre0 ++ w ++ "," ++ w' ++ pre1).
  rewrite W, W', H. now rewrite !append_assoc.
Qed.

Lemma parse_array_closes (s : string) (xs : list pyval) (r : string) :
  parse_array scan s = Parsed xs r -> exists pre, s = pre ++ "]" ++ r.
Proof.
  unfold parse_array. destruct (skip_ws_split s) as [w W].
  destruct (skip_ws s) as [|c r'] eqn:K; [discriminate|].
  destruct (Ascii.eqb_spec c "]") as [->|_].
  - intros [= _ <-]. now exists w.
  - intros H. apply array_items_closes in H. destruct H as [pre H].
    exists (w ++ pre). rewrite W, H. now rewrite append_assoc.
Qed.

Lemma object_items_eats (n : nat) (s : string) (kvs : list (string * pyval))
    (r : string) :
  object_items scan n s = Parsed kvs r -> eats s r.
Proof.
  revert s kvs r. induction n as [|n IH]; intros s kvs r; cbn [object_items];
    [discriminate|].
  destruct s as [|q r0]; [discriminate|].
  destruct (Ascii.eqb q quote); [|discriminate].
  destruct (scanstring (S (String.length r0)) r0) as [key r1| |] eqn:Sk;
    try discriminate.
  apply scanstring_eats in Sk.
  destruct (skip_ws r1) as [|c r2] eqn:K1; [discriminate|].
  destruct (Ascii.eqb c ":"); [|discriminate].
  destruct (scan (skip_ws r2)) as [v r3| |] eqn:Sc; try discriminate.
  apply scan_eats in Sc.
  assert (eats (String q r0) r3) as E3.
  { apply eats_cons_l. apply (eats_trans _ (String c r2)).
    - rewrite <- K1. now apply eats_skip_ws_r.
    - apply (eats_trans _ r2); [apply eats_cons | now apply eats_skip_ws_l]. }
  destruct (skip_ws r3) as [|d r4] eqn:K3; [discriminate|].
  assert (eats (String q r0) r4) as E4.
  { apply (eats_trans _ (skip_ws r3)).
    - now apply eats_skip_ws_r.
    - rewrite K3. apply eats_cons. }
  destruct (Ascii.eqb d "}").
  { now intros [= _ <-]. }
  destruct (Ascii.eqb d ","); [|discriminate].
  intros H. apply pmap_parsed in H. destruct H as [kvs' [H _]].
  apply IH in H. apply (eats_trans _ r4); [exact E4|].
  now apply eats_skip_ws_l.
Qed.

Lemma parse_object_eats (s : string) (d : list (string * pyval)) (r : string) :
  parse_object scan s = Parsed d r -> eats (String "{" s) r.
Proof.
  unfold parse_object.
  destruct (skip_ws s) as [|c r'] eqn:K; [discriminate|].
  destruct (Ascii.eqb c "}").
  - intros [= _ <-]. apply eats_cons_l. apply eats_skip_ws_l.
    rewrite K. apply eats_cons.
  - intros H. apply pmap_parsed in H. destruct H as [kvs [H _]].
    apply object_items_eats in H.
    apply eats_cons_l. apply eats_skip_ws_l. now rewrite K.
Qed.
End ContainerFacts.

Lemma scan_once_scanned (fuel : nat) (s : string) (v : pyval) (r : string) :
  scan_once fuel s = Parsed v r -> scanned s v r.
Proof.
  revert s v r. induction fuel as [|fuel IH]; intros s v r; cbn [scan_once];
    [discriminate|].
  assert (forall s v r, scan_once fuel s = Parsed v r -> eats s r) as IHe
    by (intros s0 v0 r0 H0; now destruct (IH _ _ _ H0)).
  destruct s as [|c s0]; [discriminate|].
  destruct (Ascii.eqb_spec c quote) as [->|Nq].
  { intros H. apply pmap_parsed in H. destruct H as [x [H ->]].
    apply scanstring_eats in H.
    repeat split; try (now apply eats_cons_l); intros t [=]. }
  destruct (Ascii.eqb_spec c "{") as [->|Nb].
  { intros H. apply pmap_parsed in H. destruct H as [d [H ->]].
    apply (parse_object_eats _ IHe) in H.
    repeat split; try apply H; [intros t [=] | intros t _; now exists d]. }
  destruct (Ascii.eqb_spec c "[") as [->|Nl].
  { intros H. apply pmap_parsed in H. destruct H as [xs [H ->]].
    apply (parse_array_closes _ IHe) in H. destruct H as [pre ->].
    split; [|split; [|split]].
    - apply eats_cons_l. now apply (closes_eats _ pre).
    - now exists pre.
    - intros t _. now exists xs.
    - intros t [=]. }
  destruct (startswith (String c s0) "null") eqn:Hn.
  { intros [= <- <-]. split; [|split; [exact Hn | split; intros t [= Ec _]; congruence]].
    apply (eats_drop 4 "null"); [exact Hn | reflexivity | lia]. }
  destruct (startswith (String c s0) "true") eqn:Ht.
  { intros [= <- <-]. split; [|split; [exact I | split; intros t [= Ec _]; congruence]].
    apply (eats_drop 4 "true"); [exact Ht | reflexivity | lia]. }
  destruct (startswith (String c s0) "false") eqn:Hf.
  { intros [= <- <-]. split; [|split; [exact I | split; intros t [= Ec _]; congruence]].
    apply (eats_drop 5 "false"); [exact Hf | reflexivity | lia]. }
  destruct (match_number (String c s0)) as [[v' r']|] eqn:Hm.
  { intros [= <- <-]. apply match_number_eats in Hm. destruct Hm as [E Nv].
    split; [exact E|]. split; [|split; intros t [= Ec _]; congruence].
    destruct v'; simpl in Nv; tauto. }
  destruct (startswith (String c s0) "NaN") eqn:H1.
  { intros [= <- <-]. split; [|split; [exact I | split; intros t [= Ec _]; congruence]].
    apply (eats_drop 3 "NaN"); [exact H1 | reflexivity | lia]. }
  destruct (startswith (String c s0) "Infinity") eqn:H2.
  { intros [= <- <-]. split; [|split; [exact I | split; intros t [= Ec _]; congruence]].
    apply (eats_drop 8 "Infinity"); [exact H2 | reflexivity | lia]. }
  destruct (startswith (String c s0) "-Infinity") eqn:H3; [|discriminate].
  intros [= <- <-]. split; [|split; [exact I | split; intros t [= Ec _]; congruence]].
  apply (eats_drop 9 "-Infinity"); [exact H3 | reflexivity | lia].
Qed.




Lemma decode_inv (s : string) (v : pyval) (r : string) :
  decode s = Parsed v r ->
  exists r', scan_once (S (String.length s)) (skip_ws s) = Parsed v r' /\
             skip_ws r' = "".
Proof.
  unfold decode.
  destruct (scan_once _ (skip_ws s)) as [v' r'| |]; try discriminate.
  destruct (skip_ws r') eqn:K; [|discriminate].
  intros [= <- _]. now exists r'.
Qed.

Lemma loads_inv (s : string) (v : pyval) :
  loads s = Some v ->
  exists r', scan_once (S (String.length s)) (skip_ws s) = Parsed v r' /\
             skip_ws r' = "".
Proof.
  unfold loads. destruct (decode s) as [v' r| |] eqn:D; try discriminate.
  intros [= <-]. now apply (decode_inv _ _ r).
Qed.


(** A text that starts with a bracket or a brace does not decode to
    [None], a boolean, a number or a string. *)
Lemma loads_bracketed (s : string) (v : pyval) (c : ascii) (t : string) :
  s = String c t -> c = "["%char \/ c = "{"%char ->
  loads s = Some v ->
  (exists xs, v = VList xs) \/ (exists d, v = VDict d).
Proof.
  intros -> Hc H. apply loads_inv in H. destruct H as [r [H _]].
  assert (skip_ws (String c t) = String c t) as K
    by (destruct Hc as [->| ->]; reflexivity).
  rewrite K in H. apply scan_once_scanned in H.
  destruct H as [_ [_ [L D]]].
  destruct Hc as [->| ->]; [left; now apply (L t) | right; now apply (D t)].
Qed.

(** *** The recursion budget is never used up *)

Lemma pmap_fuel {A B : Type} (f : A -> B) (p : parse A) :
  p <> OutOfFuel -> pmap f p <> OutOfFuel.
Proof. destruct p; simpl; congruence. Qed.

Lemma eats_length (s r : string) : eats s r -> String.length r < String.length s.
Proof. now intros [_ L]. Qed.

Lemma length_skip_ws (s : string) : String.length (skip_ws s) <= String.length s.
Proof. apply length_lstrip_set. Qed.

Lemma scanstring_fuel (fuel : nat) (s : string) :
  String.length s < fuel -> scanstring fuel s <> OutOfFuel.
Proof.
  revert s. induction fuel as [|fuel IH]; intros s L; [lia|].
  cbn [scanstring]. destruct s as [|c s]; [discriminate|]. simpl in L.
  destruct (Ascii.eqb c quote); [discriminate|].
  destruct (Ascii.eqb c "\").
  - destruct s as [|e s1]; [discriminate|]. simpl in L.
    destruct (Ascii.eqb e "u").
    + destruct (hex4 s1) as [[u r2]|] eqn:H1; [|discriminate].
      apply hex4_eats, eats_length in H1.
      assert (forall y, pmap (append y) (scanstring fuel r2) <> OutOfFuel) as Plain
        by (intros y; apply pmap_fuel, IH; lia).
      destruct (is_high_surrogate u && startswith r2 "\u"); [|apply Plain].
      destruct (hex4 (drop 2 r2)) as [[u2 r4]|] eqn:H2; [|discriminate].
      apply hex4_eats, eats_length in H2. rewrite length_drop in H2.
      destruct (is_low_surrogate u2); [|apply Plain].
      apply pmap_fuel, IH. lia.
    + destruct (backslash e); [|discriminate].
      apply pmap_fuel, IH. lia.
  - destruct (nat_of_ascii c <? 32)%nat; [discriminate|].
    apply pmap_fuel, IH. lia.
Qed.

Section ContainerFuel.
Variable scan : string -> parse pyval.
Variable bound : nat.
Hypothesis scan_eats : forall s v r, scan s = Parsed v r -> eats s r.
Hypothesis scan_fuel :
  forall s, String.length s <= bound -> scan s <> OutOfFuel.

Lemma array_items_fuel (n : nat) (s : string) :
  String.length s < n -> String.length s <= bound ->
  array_items scan n s <> OutOfFuel.
Proof.
  revert s. induction n as [|n IH]; intros s L B; [lia|].
  cbn [array_items].
  destruct (scan s) as [v r| |] eqn:Sc; [|discriminate|now apply scan_fuel in Sc].
  apply scan_eats, eats_length in Sc.
  pose proof (length_skip_ws r) as K.
  destruct (skip_ws r) as [|c r']; [discriminate|]. simpl in K.
  destruct (Ascii.eqb c "]"); [discriminate|].
  destruct (Ascii.eqb c ","); [|discriminate].
  pose proof (length_skip_ws r').
  apply pmap_fuel, IH; lia.
Qed.

Lemma parse_array_fuel (s : string) :
  String.length s <= bound -> parse_array scan s <> OutOfFuel.
Proof.
  intros B. unfold parse_array. pose proof (length_skip_ws s) as K.
  destruct (skip_ws s) as [|c r'] eqn:E; [discriminate|].
  destruct (Ascii.eqb c "]"); [discriminate|].
  apply array_items_fuel; lia.
Qed.

Lemma object_items_fuel (n : nat) (s : string) :
  String.length s < n -> String.length s <= bound ->
  object_items scan n s <> OutOfFuel.
Proof.
  revert s. induction n as [|n IH]; intros s L B; [lia|].
  cbn [object_items].
  destruct s as [|q r0]; [discriminate|]. simpl in L, B.
  destruct (Ascii.eqb q quote); [|discriminate].
  destruct (scanstring (S (String.length r0)) r0) as [key r1| |] eqn:Sk;
    [|discriminate|exfalso; revert Sk; apply scanstring_fuel; lia].
  apply scanstring_eats, eats_length in Sk.
  pose proof (length_skip_ws r1) as K1.
  destruct (skip_ws r1) as [|c r2]; [discriminate|]. simpl in K1.
  destruct (Ascii.eqb c ":"); [|discriminate].
  pose proof (length_skip_ws r2) as K2.
  destruct (scan (skip_ws r2)) as [v r3| |] eqn:Sc;
    [|discriminate|exfalso; revert Sc; apply scan_fuel; lia].
  apply scan_eats, eats_length in Sc.
  pose proof (length_skip_ws r3) as K3.
  destruct (skip_ws r3) as [|d r4]; [discriminate|]. simpl in K3.
  destruct (Ascii.eqb d "}"); [discriminate|].
  destruct (Ascii.eqb d ","); [|discriminate].
  pose proof (length_skip_ws r4).
  apply pmap_fuel, IH; lia.
Qed.

Lemma parse_object_fuel (s : string) :
  String.length s <= bound -> parse_object scan s <> OutOfFuel.
Proof.
  intros B. unfold parse_object. pose proof (length_skip_ws s) as K.
  destruct (skip_ws s) as [|c r'] eqn:E; [discriminate|].
  destruct (Ascii.eqb c "}"); [discriminate|].
  apply pmap_fuel, object_items_fuel; lia.
Qed.
End ContainerFuel.

Lemma scan_once_eats (fuel : nat) (s : string) (v : pyval) (r : string) :
  scan_once fuel s = Parsed v r -> eats s r.
Proof. intros H. now destruct (scan_once_scanned _ _ _ _ H). Qed.

Lemma scan_once_fuel (fuel : nat) (s : string) :
  String.length s < fuel -> scan_once fuel s <> OutOfFuel.
Proof.
  revert s. induction fuel as [|fuel IH]; intros s L; [lia|].
  cbn [scan_once]. destruct s as [|c s0]; [discriminate|]. simpl in L.
  assert (forall t, String.length t <= String.length s0 ->
                    scan_once fuel t <> OutOfFuel) as F
    by (intros t Lt; apply IH; lia).
  destruct (Ascii.eqb c quote).
  { apply pmap_fuel, scanstring_fuel. lia. }
  destruct (Ascii.eqb c "{").
  { apply pmap_fuel.
    apply (parse_object_fuel _ (String.length s0) (scan_once_eats fuel) F). lia. }
  destruct (Ascii.eqb c "[").
  { apply pmap_fuel.
    apply (parse_array_fuel _ (String.length s0) (scan_once_eats fuel) F). lia. }
  destruct (startswith (String c s0) "null"); [discriminate|].
  destruct (startswith (String c s0) "true"); [discriminate|].
  destruct (startswith (String c s0) "false"); [discriminate|].
  destruct (match_number (String c s0)) as [[v' r']|]; [discriminate|].
  destruct (startswith (String c s0) "NaN"); [discriminate|].
  destruct (startswith (String c s0) "Infinity"); [discriminate|].
  destruct (startswith (String c s0) "-Infinity"); discriminate.
Qed.

(** [decode] always comes to a verdict: a value or a decoding error. *)
Lemma decode_fuel (s : string) : decode s <> OutOfFuel.
Proof.
  unfold decode. pose proof (length_skip_ws s) as K.
  destruct (scan_once _ (skip_ws s)) as [v r| |] eqn:H; [|discriminate|].
  - destruct (skip_ws r); discriminate.
  - exfalso. revert H. apply scan_once_fuel. lia.
Qed.

(** [loads] is [None] exactly when the text is not a JSON document. *)
Lemma loads_none (s : string) : loads s = None <-> decode s = Malformed.
Proof.
  unfold loads. pose proof (decode_fuel s) as F.
  destruct (decode s); split; congruence.
Qed.

End JsonFacts.

(** ** Variant B *)

Module VulnerabilityFacts.
Import Py PyFacts VulnerabilityLoader.

Local Open Scope string_scope.

Lemma word_in_In (v : string) (words : list string) :
  word_in v words = true <-> In v words.
Proof.
  unfold word_in. rewrite existsb_exists. split.
  - intros [w [I E]]. apply String.eqb_eq in E. now subst.
  - intros I. exists v. split; [exact I | apply String.eqb_refl].
Qed.

Lemma word_in_not_In (v : string) (words : list string) :
  word_in v words = false <-> ~ In v words.
Proof.
  rewrite <- word_in_In. destruct (word_in v words); split; congruence.
Qed.


Lemma startswith_inv (s : string) (c : ascii) :
  startswith s (String c "") = true -> exists t, s = String c t.
Proof.
  destruct s as [|d t]; [discriminate|]. rewrite startswith_cons.
  intros H. apply Ascii.eqb_eq in H. subst. now exists t.
Qed.

Section BuiltinsFacts.
Variable py_repr : pyval -> string.

Local Abbreviation py_str := (py_str py_repr).
Local Abbreviation parse_bool := (parse_bool py_repr).
Local Abbreviation parse_mfa_methods := (parse_mfa_methods py_repr).



End BuiltinsFacts.

Section MfaMethodsFacts.
Variable py_repr : pyval -> string.

Local Abbreviation py_str := (py_str py_repr).
Local Abbreviation parse_mfa_methods := (parse_mfa_methods py_repr).

Lemma parse_mfa_methods_str (raw : string) :
  strip raw <> "" ->
  parse_mfa_methods (VStr raw) =
  match json_array_items (strip raw) with
  | Some parsed => Some (map py_str parsed)
  | None =>
      if contains (strip raw) "," then Some (comma_parts (strip raw))
      else Some [strip raw]
  end.
Proof.
  intros N. unfold VulnerabilityLoader.parse_mfa_methods.
  destruct raw as [|c r]; [now contradiction N|].
  cbn [none_or_empty]. now rewrite (eqb_neq_empty _ N).
Qed.


End MfaMethodsFacts.

Lemma dict_set_Forall {V : Type} (P : string * V -> Prop)
    (d : list (string * V)) (k : string) (v : V) :
  Forall P d -> P (k, v) -> Forall P (dict_set d k v).
Proof.
  intros F H. induction F as [|[k' v'] d Hx F IH]; simpl.
  - now constructor.
  - destruct (String.eqb k k'); constructor; assumption.
Qed.

(** What generic coercion returns is never [None]. *)
Lemma coerce_value_not_none (s : string) : coerce_value (VStr s) <> VNone.
Proof.
  unfold coerce_value.
  destruct (String.eqb (lower (strip s)) "true"); [discriminate|].
  destruct (String.eqb (lower (strip s)) "false"); [discriminate|].
  destruct (looks_like (strip s) "[" "]" || looks_like (strip s) "{" "}") eqn:B;
    [|discriminate].
  destruct (Json.loads (strip s)) as [parsed|] eqn:L; [|discriminate].
  assert (exists c t, strip s = String c t /\ (c = "["%char \/ c = "{"%char))
    as [c [t [E Hc]]].
  { unfold looks_like in B.
    apply orb_true_iff in B. destruct B as [B|B];
      apply andb_true_iff in B; destruct B as [B _];
      apply startswith_inv in B; destruct B as [t B]; eauto. }
  destruct (JsonFacts.loads_bracketed _ _ _ _ E Hc L) as [[xs ->]|[d ->]];
    discriminate.
Qed.

Section BuildFacts.
Variable py_repr : pyval -> string.

Local Abbreviation add_column := (add_column py_repr).
Local Abbreviation add_columns := (add_columns py_repr).
Local Abbreviation build_payload := (build_payload py_repr).

Lemma add_column_not_none (csv_row : record) (resource_obj : list (string * pyval))
    (h : string) (resource_obj' : list (string * pyval)) :
  Forall not_none resource_obj ->
  add_column csv_row resource_obj h = Ret resource_obj' ->
  Forall not_none resource_obj'.
Proof.
  intros F. unfold VulnerabilityLoader.add_column.
  destruct (String.eqb h "resourceId"); [now intros [= <-]|].
  destruct (row_get csv_row h) as [s|]; [|now intros [= <-]].
  cbn [val_of_cell].
  destruct (none_or_empty (VStr s)); [now intros [= <-]|].
  destruct (String.eqb h "mfaMethods").
  { destruct (parse_mfa_methods py_repr (VStr s)); intros [= <-]; [|exact F].
    apply dict_set_Forall; [exact F | discriminate]. }
  destruct (String.eqb h "mfaEnabled").
  { destruct (parse_bool py_repr (VStr s)) as [[b|]|e]; simpl; intros [= <-];
      [|exact F].
    apply dict_set_Forall; [exact F | discriminate]. }
  intros [= <-]. apply dict_set_Forall; [exact F|].
  apply coerce_value_not_none.
Qed.

Lemma add_columns_not_none (csv_row : record) (headers : list string)
    (resource_obj resource_obj' : list (string * pyval)) :
  Forall not_none resource_obj ->
  add_columns csv_row resource_obj headers = Ret resource_obj' ->
  Forall not_none resource_obj'.
Proof.
  revert resource_obj. induction headers as [|h rest IH]; intros resource_obj F.
  - now intros [= <-].
  - cbn [VulnerabilityLoader.add_columns].
    destruct (add_column csv_row resource_obj h) as [next|e] eqn:A; [|discriminate].
    simpl. apply IH. now apply (add_column_not_none _ _ _ _ F A).
Qed.


(** With a non-empty resolved [resourceId], the build is the loop over the
    columns and the final dict. *)
Lemma typed_build_payload_resolved (csv_row : record) (headers : list string)
    (resource_id_override : option string) (rid : string) :
  or_else resource_id_override (row_get csv_row "resourceId") = Some rid ->
  rid <> "" ->
  build_payload csv_row headers resource_id_override =
  match add_columns csv_row [] headers with
  | Ret resource_obj =>
      Ret (VDict [ ("resources", VList [VDict resource_obj]);
                   ("resourceId", VStr rid) ])
  | Raise e => Raise e
  end.
Proof.
  intros R N. unfold VulnerabilityLoader.build_payload. rewrite R.
  rewrite (eqb_neq_empty _ N). reflexivity.
Qed.

Lemma typed_build_payload_missing (csv_row : record) (headers : list string)
    (resource_id_override : option string) :
  or_else resource_id_override (row_get csv_row "resourceId") = None \/
  or_else resource_id_override (row_get csv_row "resourceId") = Some "" ->
  build_payload csv_row headers resource_id_override = Raise MissingResourceId.
Proof.
  unfold VulnerabilityLoader.build_payload. now intros [-> | ->].
Qed.

Lemma typed_build_payload_inv (csv_row : record) (headers : list string)
    (resource_id_override : option string) (payload : pyval) :
  build_payload csv_row headers resource_id_override = Ret payload ->
  exists rid resource_obj,
    or_else resource_id_override (row_get csv_row "resourceId") = Some rid /\
    rid <> "" /\
    add_columns csv_row [] headers = Ret resource_obj /\
    payload = VDict [ ("resources", VList [VDict resource_obj]);
                      ("resourceId", VStr rid) ].
Proof.
  destruct (or_else resource_id_override (row_get csv_row "resourceId"))
    as [rid|] eqn:R.
  - destruct rid as [|c t].
    + rewrite typed_build_payload_missing; [discriminate | now right].
    + rewrite (typed_build_payload_resolved _ _ _ _ R); [|discriminate].
      destruct (add_columns csv_row [] headers) as [resource_obj|e] eqn:A;
        [|discriminate].
      intros [= <-]. exists (String c t), resource_obj.
      repeat split. discriminate.
  - rewrite typed_build_payload_missing; [discriminate | now left].
Qed.
End BuildFacts.

End VulnerabilityFacts.

(** ** The examples of the specification for variant B *)

Module VulnerabilityExamples.
Import Py VulnerabilityLoader VulnerabilityFacts.

Local Open Scope string_scope.


(** A JSON document that is not an array falls through to the comma rule. *)
Example parse_mfa_methods_object :
  parse_mfa_methods unused_repr (VStr ("{" ++ quoted "a" ++ ":1," ++ quoted "b" ++ ":2}"))
  = Some ["{" ++ quoted "a" ++ ":1"; quoted "b" ++ ":2}"].
Proof. reflexivity. Qed.



End VulnerabilityExamples.

(** ** Payloads of both variants *)

Module PayloadFacts.
Import Py PyFacts.

Local Open Scope string_scope.

Module A := CustomResourceLoader.
Module B := VulnerabilityLoader.

Lemma custom_properties_no_none (csv_row : record) :
  forallb (fun kv : string * pyval => no_none (snd kv)) (A.custom_properties csv_row)
  = true.
Proof.
  apply forallb_forall. intros [k v] H.
  apply CustomResourceFacts.custom_properties_In in H.
  destruct H as [s [-> _]]. reflexivity.
Qed.




(** C1 as stated fails.  Variant A builds a payload whose [resourceId] is
    the empty string when the column is empty and there is no override; and
    a cell of variant B that holds a JSON object with a [null] in it puts a
    key with the value [None] into the payload. *)
Lemma empty_resource_id_is_built :
  A.build_payload [("resourceId", Some "")] ["resourceId"] None
    = Ret (VDict [ ("resourceId", VStr "");
                   ("resources", VList [VDict [("customProperties", VDict [])]]) ]) /\
  B.build_payload unused_repr
      [("resourceId", Some "r1"); ("details", Some a_null_json)]
      ["resourceId"; "details"] None
    = Ret (VDict [ ("resources", VList [VDict [("details", VDict [("a", VNone)])]]);
                   ("resourceId", VStr "r1") ]).
Proof. split; reflexivity. Qed.

Section BothVariants.
Variable py_repr : pyval -> string.

(** C1, amended.  In a payload of variant A nothing is [None], at any
    depth, and [resourceId] is the resolved string, which is empty when the
    column is empty and no non-empty override is given; variant A raises
    exactly when nothing resolves ([None]).  In a payload of variant B
    [resourceId] is the resolved string and is not empty, and no key of
    [resources[0]] maps to [None] (a [None] may sit deeper, inside a value
    decoded from a cell); variant B raises [MissingResourceId] when the
    resolved [resourceId] is [None] or empty. *)
Theorem payload_invariant (csv_row : record) (headers : list string)
    (resource_id_override : option string) :
  let resolved := or_else resource_id_override (row_get csv_row "resourceId") in
  (forall payload,
      A.build_payload csv_row headers resource_id_override = Ret payload ->
      no_none payload = true /\
      exists rid, resolved = Some rid /\
                  payload_get payload "resourceId" = Some (VStr rid)) /\
  (resolved = None <->
   A.build_payload csv_row headers resource_id_override = Raise MissingResourceId) /\
  (forall payload,
      B.build_payload py_repr csv_row headers resource_id_override = Ret payload ->
      exists rid resource_obj,
        resolved = Some rid /\ rid <> "" /\
        payload = VDict [ ("resources", VList [VDict resource_obj]);
                          ("resourceId", VStr rid) ] /\
        Forall not_none resource_obj) /\
  (resolved = None \/ resolved = Some "" ->
   B.build_payload py_repr csv_row headers resource_id_override
     = Raise MissingResourceId).
Proof.
  intros resolved. split; [|split; [|split]].
  - intros payload H.
    apply CustomResourceFacts.build_payload_inv in H. destruct H as [rid [R ->]].
    split; [|now exists rid].
    pose proof (custom_properties_no_none csv_row) as C.
    destruct (row_get csv_row "displayName"), (row_get csv_row "uniqueId"),
      (row_get csv_row "externalUrl"); cbn; now rewrite C.
  - unfold A.build_payload. fold resolved.
    destruct resolved; split; congruence.
  - intros payload H.
    apply VulnerabilityFacts.typed_build_payload_inv in H.
    destruct H as [rid [resource_obj [R [N [C ->]]]]].
    exists rid, resource_obj. repeat split; try assumption.
    apply (VulnerabilityFacts.add_columns_not_none py_repr csv_row headers []);
      [constructor | exact C].
  - apply VulnerabilityFacts.typed_build_payload_missing.
Qed.


End BothVariants.

Lemma payload_invariant_witness :
  (no_none (VDict [ ("resourceId", VStr "r1");
                    ("resources",
                     VList [VDict [ ("displayName", VStr "");
                                    ("uniqueId", VStr "u1");
                                    ("customProperties", VDict []) ]]) ]) = true /\
   exists rid, Some "r1" = Some rid /\ Some (VStr "r1") = Some (VStr rid)) /\
  B.build_payload unused_repr [("resourceId", Some "")] ["resourceId"] None
    = Raise MissingResourceId.
Proof.
  split.
  - apply (proj1 (payload_invariant unused_repr example_record
                    ["resourceId"; "displayName"; "uniqueId"] None)).
    reflexivity.
  - apply (proj2 (proj2 (proj2 (payload_invariant unused_repr
                                  [("resourceId", Some "")] ["resourceId"] None)))).
    right. reflexivity.
Defined.



End PayloadFacts.

(** ** A run of variant B over a network that fails *)

Module RunnerExamples.
Import Runner RunnerFacts.

Local Abbreviation build := (VulnerabilityLoader.build_payload unused_repr).
Local Abbreviation run := (process_rows build plain_args flaky_network ["resourceId"; "mfaEnabled"]).

Lemma per_row_failures_witness :
  run 1 [good_row; good_row; good_row]
    = ([ RowError 1 "timed out";
         RowFail 2 "https://api.example.com/res" 500 "boom";
         RowOk 3 "https://api.example.com/res" 200 ], None) /\
  run 1 [good_row; bad_row; good_row]
    = ([RowError 1 "timed out"], Some (InvalidBoolean (VStr "maybe"))) /\
  run 2 [good_row]
    = ([RowFail 2 "https://api.example.com/res" 500 "boom"], None).
Proof.
  split; [|split].
  - exact (proj1 (per_row_failures build plain_args flaky_network
                    ["resourceId"; "mfaEnabled"] 1 good_row [good_row; good_row]
                    "https://api.example.com/res" eq_refl)
                 good_payload "timed out" eq_refl eq_refl eq_refl).
  - destruct (proj1 (proj2 (per_row_failures build plain_args flaky_network
                              ["resourceId"; "mfaEnabled"] 2 bad_row [good_row]
                              "https://api.example.com/res" eq_refl))
                    (InvalidBoolean (VStr "maybe")) eq_refl) as [_ H].
    exact (H [good_row] [RowError 1 "timed out"] eq_refl (le_S 1 1 (le_n 1))).
  - destruct (proj2 (proj2 (per_row_failures build plain_args flaky_network
                              ["resourceId"; "mfaEnabled"] 2 good_row []
                              "https://api.example.com/res" eq_refl))
                    good_payload 500%Z "boom"%string eq_refl eq_refl eq_refl
                    (or_intror (proj1 (Z.leb_le 300 500) eq_refl))) as [H _].
    exact H.
Defined.

(** A dry run over two rows prints two previews, whatever the network. *)
Example dry_run_two_rows (send_row_put : network) :
  CustomResourceLoader.main
    {| api_url := "https://api.example.com/res"; auth_token := None;
       id_column := None; resource_id := None; timeout := 10; dry_run := true |}
    send_row_put
    {| fieldnames := Some ["resourceId"; "displayName"; "uniqueId"; "externalUrl"; "team"];
       rows := [ [("resourceId", Some "r1"); ("displayName", Some "One");
                  ("uniqueId", Some "u1"); ("externalUrl", Some ""); ("team", Some "a")];
                 [("resourceId", Some "r2"); ("displayName", Some "Two");
                  ("uniqueId", Some "u2"); ("externalUrl", Some ""); ("team", Some "")] ] |}
  = ([ FieldsDetected ["resourceId"; "displayName"; "uniqueId"; "externalUrl"; "team"];
       DryRun 1 "https://api.example.com/res"
         (VDict [ ("resourceId", VStr "r1");
                  ("resources",
                   VList [VDict [ ("displayName", VStr "One"); ("uniqueId", VStr "u1");
                                  ("externalUrl", VStr "");
                                  ("customProperties", VDict [("team", VStr "a")]) ]]) ]);
       DryRun 2 "https://api.example.com/res"
         (VDict [ ("resourceId", VStr "r2");
                  ("resources",
                   VList [VDict [ ("displayName", VStr "Two"); ("uniqueId", VStr "u2");
                                  ("externalUrl", VStr "");
                                  ("customProperties", VDict []) ]]) ]) ],
     None).
Proof. reflexivity. Qed.

End RunnerExamples.

(** ** Dictionaries built by assignment *)

Section DictBuildFacts.
Context {V : Type}.
Implicit Types (d : list (string * V)) (k : string) (v : V).





Lemma dict_get_keys d k : dict_get d k = None <-> ~ In k (dict_keys d).
Proof.
  unfold dict_keys. induction d as [|[k' v'] d IH]; simpl; [tauto|].
  destruct (String.eqb_spec k k') as [->|N].
  - split; [discriminate | tauto].
  - rewrite IH. split; [intros H [E|I]; [now symmetry in E | tauto] | tauto].
Qed.



End DictBuildFacts.

(** ** The cleaned row *)

Module CleanRowFacts.
Import Py PyFacts Runner.



End CleanRowFacts.

(** ** The loop of variant B over the columns *)

Module TypedLoopFacts.
Import Py PyFacts VulnerabilityLoader VulnerabilityFacts.

Local Open Scope string_scope.

Section LoopOverColumns.
Variable py_repr : pyval -> string.

Local Abbreviation parse_bool := (parse_bool py_repr).
Local Abbreviation parse_mfa_methods := (parse_mfa_methods py_repr).
Local Abbreviation add_column := (add_column py_repr).
Local Abbreviation add_columns := (add_columns py_repr).
Local Abbreviation build_payload := (build_payload py_repr).

Lemma parse_bool_str_cases (s : string) :
  s <> "" ->
  (exists b, parse_bool (VStr s) = Ret (Some b) /\
             (In (lower (strip s)) true_words \/ In (lower (strip s)) false_words)) \/
  (parse_bool (VStr s) = Raise (InvalidBoolean (VStr s)) /\
   ~ In (lower (strip s)) true_words /\ ~ In (lower (strip s)) false_words).
Proof.
  intros N. unfold VulnerabilityLoader.parse_bool.
  destruct s as [|c t]; [congruence|]. cbn [none_or_empty py_str].
  destruct (word_in _ true_words) eqn:T.
  { left. exists true. split; [reflexivity|]. left. now apply word_in_In. }
  destruct (word_in _ false_words) eqn:F.
  { left. exists false. split; [reflexivity|]. right. now apply word_in_In. }
  right. split; [reflexivity|]. split; now apply word_in_not_In.
Qed.

Lemma parse_mfa_methods_blank (s : string) :
  s <> "" -> (parse_mfa_methods (VStr s) = None <-> strip s = "").
Proof.
  intros N. split.
  - intros H. destruct (strip s) as [|c t] eqn:E; [reflexivity|].
    rewrite parse_mfa_methods_str in H; [|rewrite E; discriminate].
    destruct (json_array_items (strip s)); [discriminate|].
    destruct (contains (strip s) ","); discriminate.
  - intros E. unfold VulnerabilityLoader.parse_mfa_methods.
    destruct s as [|c t]; [congruence|]. cbn [none_or_empty]. now rewrite E.
Qed.

(** What one turn of the loop does to the object built so far is what it
    does to the empty object, assigned on top. *)
Lemma add_column_frame (csv_row : record) (resource_obj : list (string * pyval))
    (h : string) :
  add_column csv_row resource_obj h =
  match add_column csv_row [] h with
  | Ret [] => Ret resource_obj
  | Ret ((k, v) :: _) => Ret (dict_set resource_obj k v)
  | Raise e => Raise e
  end.
Proof.
  unfold VulnerabilityLoader.add_column.
  destruct (String.eqb h "resourceId"); [reflexivity|].
  destruct (none_or_empty (val_of_cell (row_get csv_row h))); [reflexivity|].
  destruct (String.eqb h "mfaMethods").
  { now destruct (VulnerabilityLoader.parse_mfa_methods _ _). }
  destruct (String.eqb h "mfaEnabled").
  { now destruct (VulnerabilityLoader.parse_bool _ _) as [[b|]|e]. }
  reflexivity.
Qed.

(** One turn of the loop on the empty object, case by case. *)
Definition turn_outcome (csv_row : record) (h : string) : Prop :=
  match add_column csv_row [] h with
  | Ret [] => column_is_sent csv_row h = false
  | Ret [(k, v)] =>
      k = h /\ column_is_sent csv_row h = true /\
      exists s, row_get csv_row h = Some s /\ s <> "" /\
        ((h = "mfaMethods" /\
          exists parsed, parse_mfa_methods (VStr s) = Some parsed /\
                         v = VList (map VStr parsed)) \/
         (h = "mfaEnabled" /\
          exists b, parse_bool (VStr s) = Ret (Some b) /\ v = VBool b) \/
         (h <> "mfaMethods" /\ h <> "mfaEnabled" /\ v = coerce_value (VStr s)))
  | Ret _ => False
  | Raise e =>
      h = "mfaEnabled" /\
      exists s, row_get csv_row h = Some s /\ s <> "" /\
                e = InvalidBoolean (VStr s) /\
                ~ In (lower (strip s)) true_words /\
                ~ In (lower (strip s)) false_words
  end.

Lemma add_column_turn (csv_row : record) (h : string) : turn_outcome csv_row h.
Proof.
  unfold turn_outcome, VulnerabilityLoader.add_column, column_is_sent.
  destruct (String.eqb_spec h "resourceId") as [->|Nr]; [reflexivity|].
  destruct (row_get csv_row h) as [s|] eqn:G; [|reflexivity].
  destruct s as [|c t]; [reflexivity|].
  set (s := String c t). assert (s <> "") as Ns by discriminate.
  cbn [val_of_cell none_or_empty]. fold s.
  destruct (String.eqb_spec h "mfaMethods") as [->|Nm].
  { destruct (parse_mfa_methods (VStr s)) as [parsed|] eqn:P.
    - assert (strip s <> "") as B.
      { intros E. apply (parse_mfa_methods_blank s Ns) in E. congruence. }
      simpl. split; [reflexivity|]. split.
      + now rewrite (eqb_neq_empty _ B).
      + exists s. repeat split; try assumption. left. split; [reflexivity|].
        now exists parsed.
    - apply (parse_mfa_methods_blank s Ns) in P. simpl. now rewrite P. }
  destruct (String.eqb_spec h "mfaEnabled") as [->|Ne].
  { destruct (parse_bool_str_cases s Ns) as [[b [E _]]|[E [T F]]]; rewrite E; simpl.
    - split; [reflexivity|]. split; [reflexivity|].
      exists s. repeat split; try assumption. right. left.
      split; [reflexivity|]. now exists b.
    - split; [reflexivity|]. exists s. now repeat split. }
  simpl. split; [reflexivity|]. split.
  { destruct (String.eqb_spec h "mfaMethods"); [contradiction | reflexivity]. }
  exists s. repeat split; try assumption. right. right. now repeat split.
Qed.
(** The value a turn stores under [k], when it stores one. *)
Local Abbreviation stored csv_row k :=
  (match add_column csv_row [] k with
   | Ret ((_, v) :: _) => Some v
   | _ => None
   end).

Lemma add_column_step (csv_row : record) (resource_obj resource_obj' : list (string * pyval))
    (h : string) :
  add_column csv_row resource_obj h = Ret resource_obj' ->
  (column_is_sent csv_row h = false /\ resource_obj' = resource_obj) \/
  (column_is_sent csv_row h = true /\
   exists v, stored csv_row h = Some v /\ resource_obj' = dict_set resource_obj h v).
Proof.
  rewrite add_column_frame. pose proof (add_column_turn csv_row h) as T.
  unfold turn_outcome in T.
  destruct (add_column csv_row [] h) as [[|[k v] [|x d]]|e]; try contradiction;
    try discriminate.
  - intros [= <-]. now left.
  - destruct T as [-> [S _]]. intros [= <-]. right. split; [exact S|]. now exists v.
Qed.

Lemma add_columns_get (csv_row : record) (headers : list string)
    (resource_obj resource_obj' : list (string * pyval)) :
  add_columns csv_row resource_obj headers = Ret resource_obj' ->
  forall k,
    dict_get resource_obj' k =
    if existsb (String.eqb k) headers && column_is_sent csv_row k
    then stored csv_row k
    else dict_get resource_obj k.
Proof.
  revert resource_obj. induction headers as [|h rest IH]; intros resource_obj.
  - intros [= <-] k. reflexivity.
  - cbn [VulnerabilityLoader.add_columns].
    destruct (add_column csv_row resource_obj h) as [next|e] eqn:A; [|discriminate].
    simpl bind. intros H k. rewrite (IH _ H k). cbn [existsb].
    destruct (existsb (String.eqb k) rest && column_is_sent csv_row k) eqn:C.
    + apply andb_true_iff in C. destruct C as [C1 C2]. rewrite C1, C2.
      now rewrite orb_true_r.
    + assert (existsb (String.eqb k) rest && column_is_sent csv_row k = false
              -> (String.eqb k h || existsb (String.eqb k) rest)
                 && column_is_sent csv_row k
                 = String.eqb k h && column_is_sent csv_row k) as R.
      { destruct (String.eqb k h), (existsb (String.eqb k) rest),
          (column_is_sent csv_row k); simpl; congruence. }
      rewrite (R C). clear R.
      destruct (add_column_step _ _ _ _ A) as [[S ->]|[S [v [V ->]]]].
      * destruct (String.eqb_spec k h) as [->|N]; [now rewrite S | reflexivity].
      * destruct (String.eqb_spec k h) as [->|N].
        -- rewrite S. simpl. rewrite V. apply dict_get_set_same.
        -- simpl. now apply dict_get_set_other.
Qed.


Lemma add_column_ext (r1 r2 : record) (resource_obj : list (string * pyval))
    (h : string) :
  row_get r1 h = row_get r2 h ->
  add_column r1 resource_obj h = add_column r2 resource_obj h.
Proof. intros E. unfold VulnerabilityLoader.add_column. now rewrite E. Qed.

Lemma add_columns_ext (r1 r2 : record) (headers : list string)
    (resource_obj : list (string * pyval)) :
  (forall h, In h headers -> row_get r1 h = row_get r2 h) ->
  add_columns r1 resource_obj headers = add_columns r2 resource_obj headers.
Proof.
  revert resource_obj. induction headers as [|h rest IH]; intros resource_obj E;
    [reflexivity|].
  cbn [VulnerabilityLoader.add_columns].
  rewrite (add_column_ext r1 r2 _ h (E h (or_introl eq_refl))).
  destruct (add_column r2 resource_obj h); [|reflexivity].
  simpl. apply IH. intros h' I. apply E. now right.
Qed.




(** X3.  In what variant B builds, whatever stands under [mfaEnabled] is a
    boolean and whatever stands under [mfaMethods] is a list of strings. *)
Theorem mfa_fields_are_typed (csv_row : record) (headers : list string)
    (resource_id_override : option string) (payload : pyval) :
  build_payload csv_row headers resource_id_override = Ret payload ->
  exists resource_obj,
    resources0 payload = Some (VDict resource_obj) /\
    (forall v, dict_get resource_obj "mfaEnabled" = Some v -> exists b, v = VBool b) /\
    (forall v, dict_get resource_obj "mfaMethods" = Some v ->
               exists names, v = VList (map VStr names)).
Proof.
  intros H. apply typed_build_payload_inv in H.
  destruct H as [rid [resource_obj [_ [_ [C ->]]]]].
  exists resource_obj. split; [reflexivity|].
  assert (forall h v, dict_get resource_obj h = Some v ->
                      add_column csv_row [] h = Ret [(h, v)]) as G.
  { intros h v. rewrite (add_columns_get _ _ _ _ C h).
    destruct (existsb (String.eqb h) headers && column_is_sent csv_row h);
      [|discriminate].
    pose proof (add_column_turn csv_row h) as T. unfold turn_outcome in T.
    destruct (add_column csv_row [] h) as [[|[k v'] [|x d]]|e];
      try contradiction; try discriminate.
    destruct T as [-> _]. now intros [= ->]. }
  split; intros v D; apply G in D.
  - pose proof (add_column_turn csv_row "mfaEnabled") as T.
    unfold turn_outcome in T. rewrite D in T.
    destruct T as [_ [_ [s [_ [_ T]]]]].
    destruct T as [[E _]|[[_ [b [_ ->]]]|[_ [Ne _]]]];
      [discriminate | now exists b | congruence].
  - pose proof (add_column_turn csv_row "mfaMethods") as T.
    unfold turn_outcome in T. rewrite D in T.
    destruct T as [_ [_ [s [_ [_ T]]]]].
    destruct T as [[_ [parsed [_ ->]]]|[[E _]|[Nm _]]];
      [now exists parsed | discriminate | congruence].
Qed.


(** X5.  Variant B reads the row at the listed columns and at [resourceId]
    only: two rows that agree there get the same outcome. *)
Theorem unlisted_columns_are_ignored (r1 r2 : record) (headers : list string)
    (resource_id_override : option string) :
  (forall h, In h headers -> row_get r1 h = row_get r2 h) ->
  row_get r1 "resourceId" = row_get r2 "resourceId" ->
  build_payload r1 headers resource_id_override
    = build_payload r2 headers resource_id_override.
Proof.
  intros E R. unfold VulnerabilityLoader.build_payload.
  rewrite R. fold add_columns. now rewrite (add_columns_ext r1 r2 headers [] E).
Qed.
End LoopOverColumns.



Lemma mfa_fields_are_typed_witness :
  exists resource_obj,
    resources0 typed_payload = Some (VDict resource_obj) /\
    (forall v, dict_get resource_obj "mfaEnabled" = Some v -> exists b, v = VBool b) /\
    (forall v, dict_get resource_obj "mfaMethods" = Some v ->
               exists names, v = VList (map VStr names)).
Proof.
  apply (mfa_fields_are_typed unused_repr typed_row typed_headers None).
  reflexivity.
Defined.


Lemma unlisted_columns_are_ignored_witness :
  build_payload unused_repr typed_row typed_headers None
    = build_payload unused_repr
        [ ("mfaMethods", Some "PUSH_PROMPT,SMS"); ("resourceId", Some "r1");
          ("status", Some "ACTIVE"); ("note", Some ""); ("mfaEnabled", Some "Yes") ]
        typed_headers None.
Proof.
  apply (unlisted_columns_are_ignored unused_repr).
  - intros h I. unfold typed_headers in I. simpl in I.
    repeat (destruct I as [<-|I]; [reflexivity|]). destruct I.
  - reflexivity.
Defined.

End TypedLoopFacts.

(** ** What the coercions of variant B can return *)

Module CoercionFacts.
Import Py PyFacts VulnerabilityLoader VulnerabilityFacts.

Local Open Scope string_scope.







Section MethodsFacts.
Variable py_repr : pyval -> string.

Local Abbreviation parse_mfa_methods := (parse_mfa_methods py_repr).

End MethodsFacts.


End CoercionFacts.

(** ** Variant A on a row that is a dict *)

Module CustomPropertiesFacts.
Import Py PyFacts CustomResourceLoader CustomResourceFacts.

Local Open Scope string_scope.

Lemma dict_get_iff_In {V : Type} (d : list (string * V)) (k : string) (v : V) :
  NoDup (dict_keys d) -> (dict_get d k = Some v <-> In (k, v) d).
Proof.
  intros ND. split; [apply dict_get_In|].
  unfold dict_keys in ND. induction d as [|[k' v'] d IH]; simpl; [tauto|].
  inversion ND as [|? ? Hn Hd]; subst.
  destruct (String.eqb_spec k k') as [->|N].
  - intros [[= ->]|I]; [reflexivity|].
    exfalso. apply Hn. apply in_map_iff. now exists (k', v).
  - intros [[= E _]|I]; [now symmetry in E | now apply IH].
Qed.

Lemma custom_properties_keys (csv_row : record) :
  dict_keys (custom_properties csv_row) =
  map fst (filter (fun kv => negb (is_excluded (fst kv))
                             && negb (none_or_empty (val_of_cell (snd kv))))
                  csv_row).
Proof.
  unfold dict_keys, custom_properties. rewrite map_map. reflexivity.
Qed.

Lemma NoDup_keys_filter {V : Type} (p : string * V -> bool) (d : list (string * V)) :
  NoDup (map fst d) -> NoDup (map fst (filter p d)).
Proof.
  induction d as [|x d IH]; simpl; intros H; [constructor|].
  inversion H as [|? ? Hn Hd]; subst.
  destruct (p x); [|now apply IH].
  simpl. constructor; [|now apply IH].
  intros I. apply Hn. apply in_map_iff in I. destruct I as [y [E I]].
  apply filter_In in I. apply in_map_iff. exists y. tauto.
Qed.

(** X9.  On a row whose names are pairwise distinct, [customProperties] is a
    dict with pairwise distinct keys; looking a name up in it gives the
    row's cell for that name when the name is not one of the four standard
    ones and the cell is a non-empty string, and nothing otherwise; and
    none of the four standard names is a key. *)
Theorem custom_properties_lookup (csv_row : record) :
  NoDup (dict_keys csv_row) ->
  NoDup (dict_keys (custom_properties csv_row)) /\
  (forall k v,
      dict_get (custom_properties csv_row) k = Some v <->
      is_excluded k = false /\
      exists s, row_get csv_row k = Some s /\ s <> "" /\ v = VStr s) /\
  (forall k, In k ["resourceId"; "displayName"; "uniqueId"; "externalUrl"] ->
             dict_get (custom_properties csv_row) k = None).
Proof.
  intros ND.
  assert (NoDup (dict_keys (custom_properties csv_row))) as NC
    by (rewrite custom_properties_keys; now apply NoDup_keys_filter).
  assert (forall k v,
             dict_get (custom_properties csv_row) k = Some v <->
             is_excluded k = false /\
             exists s, row_get csv_row k = Some s /\ s <> "" /\ v = VStr s) as L.
  { intros k v. rewrite (dict_get_iff_In _ k v NC), custom_properties_In. split.
    - intros [s [-> [N [X I]]]]. split; [exact X|]. exists s.
      apply (dict_get_iff_In _ _ _ ND) in I. unfold row_get. now rewrite I.
    - intros [X [s [G [N ->]]]]. exists s. repeat split; try assumption.
      apply (dict_get_iff_In _ _ _ ND). unfold row_get in G.
      destruct (dict_get csv_row k) as [c|]; [now subst | discriminate]. }
  split; [exact NC|]. split; [exact L|].
  intros k I. destruct (dict_get (custom_properties csv_row) k) as [v|] eqn:G;
    [|reflexivity].
  apply L in G. destruct G as [X _]. exfalso.
  simpl in I. repeat (destruct I as [<-|I]; [discriminate|]). exact I.
Qed.

Lemma custom_properties_lookup_witness :
  NoDup (dict_keys (custom_properties typed_row)) /\
  (forall k v,
      dict_get (custom_properties typed_row) k = Some v <->
      is_excluded k = false /\
      exists s, row_get typed_row k = Some s /\ s <> "" /\ v = VStr s) /\
  (forall k, In k ["resourceId"; "displayName"; "uniqueId"; "externalUrl"] ->
             dict_get (custom_properties typed_row) k = None).
Proof.
  apply (custom_properties_lookup typed_row).
  unfold typed_row, dict_keys. simpl.
  repeat (constructor; [simpl; intros H;
                        repeat (destruct H as [H|H]; [discriminate|]); exact H|]).
  constructor.
Defined.

(** The keys of [resources[0]] in variant A come in a fixed order: of
    [displayName], [uniqueId] and [externalUrl] those whose column holds a
    string, in this order, and then [customProperties]. *)
Theorem resource_object_key_order
    (csv_row : record) (csv_headers : list string)
    (resource_id_override : option string) (payload : pyval) :
  build_payload csv_row csv_headers resource_id_override = Ret payload ->
  exists resource_obj,
    resources0 payload = Some (VDict resource_obj) /\
    dict_keys resource_obj =
      (filter (fun k => match row_get csv_row k with Some _ => true | None => false end)
              ["displayName"; "uniqueId"; "externalUrl"]
       ++ ["customProperties"])%list.
Proof.
  intros H. apply build_payload_inv in H. destruct H as [rid [_ ->]].
  eexists. split; [reflexivity|].
  simpl filter.
  destruct (row_get csv_row "displayName"), (row_get csv_row "uniqueId"),
    (row_get csv_row "externalUrl"); reflexivity.
Qed.

Lemma resource_object_key_order_witness :
  exists resource_obj,
    resources0 (VDict [ ("resourceId", VStr "r1");
                        ("resources",
                         VList [VDict [ ("displayName", VStr "");
                                        ("uniqueId", VStr "u1");
                                        ("customProperties", VDict []) ]]) ])
      = Some (VDict resource_obj) /\
    dict_keys resource_obj =
      (filter (fun k => match row_get example_record k with
                        | Some _ => true | None => false end)
              ["displayName"; "uniqueId"; "externalUrl"]
       ++ ["customProperties"])%list.
Proof.
  apply (resource_object_key_order example_record ["resourceId"] None).
  reflexivity.
Defined.

End CustomPropertiesFacts.

(** ** The driver: what the network can and cannot change *)

Module RunnerMore.
Import Py PyFacts Runner.

Section Driver.
Variable build_payload : record -> list string -> option string -> result pyval.
Variable a : args.
Variable csv_headers : list string.

Local Abbreviation process_row := (process_row build_payload a).
Local Abbreviation process_rows := (process_rows build_payload a).

(** What is settled for a row before any request: its URL and payload, or
    the exception. *)
Local Abbreviation prepared row :=
  (let* url := row_url a csv_headers row in
   let* payload := build_payload (clean_row row) csv_headers (resource_id a) in
   Ret (url, payload)).

Lemma process_row_shape (send_row_put : network) (i : nat) (row : record) :
  match prepared row with
  | Raise e => process_row send_row_put csv_headers i row = Raise e
  | Ret (url, payload) =>
      exists line,
        process_row send_row_put csv_headers i row = Ret [line] /\
        event_row line = Some i /\
        (dry_run a = true -> line = DryRun i url payload)
  end.
Proof.
  unfold Runner.process_row.
  destruct (row_url a csv_headers row) as [url|e]; [|reflexivity]. simpl.
  destruct (build_payload (clean_row row) csv_headers (resource_id a))
    as [payload|e]; [|reflexivity]. simpl.
  destruct (dry_run a).
  - eexists. split; [reflexivity|]. split; [reflexivity | reflexivity].
  - destruct (send_row_put i url payload (base_headers a) (timeout a))
      as [status_code text|message].
    + destruct ((200 <=? status_code)%Z && (status_code <? 300)%Z);
        eexists; (split; [reflexivity|]); (split; [reflexivity | discriminate]).
    + eexists. split; [reflexivity|]. split; [reflexivity | discriminate].
Qed.

Lemma process_rows_lines (send_row_put : network) (i : nat) (rs : list record) :
  map event_row (fst (process_rows send_row_put csv_headers i rs))
    = map Some (seq i (length (fst (process_rows send_row_put csv_headers i rs)))) /\
  length (fst (process_rows send_row_put csv_headers i rs)) <= length rs /\
  (snd (process_rows send_row_put csv_headers i rs) = None <->
   length (fst (process_rows send_row_put csv_headers i rs)) = length rs).
Proof.
  revert i. induction rs as [|row rest IH]; intros i.
  - simpl. repeat split; auto.
  - cbn [Runner.process_rows].
    pose proof (process_row_shape send_row_put i row) as S.
    destruct (prepared row) as [[url payload]|e].
    + destruct S as [line [-> [E _]]].
      destruct (IH (S i)) as [M [L D]].
      destruct (process_rows send_row_put csv_headers (S i) rest) as [later ended].
      simpl in *. rewrite E, M. repeat split; try lia.
      * intros H. apply D in H. lia.
      * intros H. apply D. lia.
    + rewrite S. simpl. repeat split; try lia; discriminate.
Qed.

Lemma process_rows_two_networks (net1 net2 : network) (i : nat) (rs : list record) :
  snd (process_rows net1 csv_headers i rs) = snd (process_rows net2 csv_headers i rs) /\
  length (fst (process_rows net1 csv_headers i rs))
    = length (fst (process_rows net2 csv_headers i rs)) /\
  (dry_run a = true ->
   process_rows net1 csv_headers i rs = process_rows net2 csv_headers i rs).
Proof.
  revert i. induction rs as [|row rest IH]; intros i.
  - simpl. auto.
  - cbn [Runner.process_rows].
    pose proof (process_row_shape net1 i row) as S1.
    pose proof (process_row_shape net2 i row) as S2.
    destruct (prepared row) as [[url payload]|e].
    + destruct S1 as [l1 [-> [_ D1]]]. destruct S2 as [l2 [-> [_ D2]]].
      destruct (IH (S i)) as [E [L D]].
      destruct (process_rows net1 csv_headers (S i) rest) as [later1 ended1].
      destruct (process_rows net2 csv_headers (S i) rest) as [later2 ended2].
      simpl in *. repeat split; try congruence.
      intros T. rewrite (D1 T), (D2 T). specialize (D T). now inversion D.
    + rewrite S1, S2. auto.
Qed.
End Driver.

(** X10.  The network decides neither whether the run ends in an exception, nor
    which one, nor how many lines are printed: two runs that differ in the
    network only end alike and print as many lines. *)
Theorem network_never_ends_the_run
    (build_payload : record -> list string -> option string -> result pyval)
    (a : args) (net1 net2 : network) (f : reader) :
  snd (main build_payload a net1 f) = snd (main build_payload a net2 f) /\
  length (fst (main build_payload a net1 f))
    = length (fst (main build_payload a net2 f)).
Proof.
  unfold main. destruct (fieldnames f) as [names|]; [|split; reflexivity].
  destruct (process_rows_two_networks build_payload a (map strip names)
              net1 net2 1 (rows f)) as [E [L _]].
  destruct (Runner.process_rows build_payload a net1 _ 1 (rows f)).
  destruct (Runner.process_rows build_payload a net2 _ 1 (rows f)).
  simpl in *. split; congruence.
Qed.

(** X11.  With [--dry-run] nothing depends on the network: the whole output and
    the way the run ends are the same whatever the network would answer,
    and every line after the first is a preview. *)
Theorem dry_run_ignores_network
    (build_payload : record -> list string -> option string -> result pyval)
    (a : args) (net1 net2 : network) (f : reader) :
  dry_run a = true ->
  main build_payload a net1 f = main build_payload a net2 f /\
  (forall line, In line (fst (main build_payload a net1 f)) ->
     (exists headers, line = FieldsDetected headers) \/
     (exists i url payload, line = DryRun i url payload)).
Proof.
  intros D. split.
  - unfold main. destruct (fieldnames f) as [names|]; [|reflexivity].
    destruct (process_rows_two_networks build_payload a (map strip names)
                net1 net2 1 (rows f)) as [_ [_ E]].
    now rewrite (E D).
  - unfold main. destruct (fieldnames f) as [names|]; [|intros line []].
    assert (forall i rs line,
               In line (fst (Runner.process_rows build_payload a net1
                               (map strip names) i rs)) ->
               exists j url payload, line = DryRun j url payload) as P.
    { intros i rs. revert i. induction rs as [|row rest IH]; intros i line;
        [intros []|].
      cbn [Runner.process_rows].
      pose proof (process_row_shape build_payload a (map strip names) net1 i row) as S.
      destruct (let* url := row_url a (map strip names) row in
                let* payload := build_payload (clean_row row) (map strip names)
                                  (resource_id a) in
                Ret (url, payload)) as [[url payload]|e].
      - destruct S as [l [-> [_ L]]]. specialize (IH (S i)).
        destruct (Runner.process_rows build_payload a net1 _ (S i) rest)
          as [later ended].
        simpl. intros [<-|I]; [rewrite (L D); eauto | now apply IH].
      - rewrite S. intros []. }
    specialize (P 1 (rows f)).
    destruct (Runner.process_rows build_payload a net1 _ 1 (rows f)) as [printed ended].
    simpl. intros line [<-|I]; [left; eauto | right; now apply P].
Qed.

(** X12.  A run prints the detected fields first and then one line per row it
    got through, numbered from 1 in file order; it ends without exception
    exactly when it got through every row.  A file without a header row
    prints nothing and ends with [MissingHeader]. *)
Theorem one_line_per_row
    (build_payload : record -> list string -> option string -> result pyval)
    (a : args) (send_row_put : network) (f : reader) :
  match fieldnames f with
  | None => main build_payload a send_row_put f = ([], Some MissingHeader)
  | Some names =>
      exists lines,
        fst (main build_payload a send_row_put f)
          = FieldsDetected (map strip names) :: lines /\
        map event_row lines = map Some (seq 1 (length lines)) /\
        length lines <= length (rows f) /\
        (snd (main build_payload a send_row_put f) = None <->
         length lines = length (rows f))
  end.
Proof.
  unfold main. destruct (fieldnames f) as [names|]; [|reflexivity].
  pose proof (process_rows_lines build_payload a (map strip names)
                send_row_put 1 (rows f)) as P.
  destruct (Runner.process_rows build_payload a send_row_put _ 1 (rows f))
    as [printed ended].
  simpl in *. now exists printed.
Qed.

Lemma dry_run_ignores_network_witness :
  main (VulnerabilityLoader.build_payload unused_repr) dry_args flaky_network
       two_rows_file
    = main (VulnerabilityLoader.build_payload unused_repr) dry_args dead_network
           two_rows_file /\
  (forall line,
     In line (fst (main (VulnerabilityLoader.build_payload unused_repr) dry_args
                        flaky_network two_rows_file)) ->
     (exists headers, line = FieldsDetected headers) \/
     (exists i url payload, line = DryRun i url payload)).
Proof.
  apply (dry_run_ignores_network (VulnerabilityLoader.build_payload unused_repr)
           dry_args flaky_network dead_network two_rows_file).
  reflexivity.
Defined.

Section Lines.
Variable build_payload : record -> list string -> option string -> result pyval.
Variable a : args.
Variable send_row_put : network.
Variable csv_headers : list string.

Local Abbreviation process_row :=
  (process_row build_payload a send_row_put csv_headers).

End Lines.


(** X14.  The request headers always hold [Content-Type: application/json];
    they hold [Authorization] exactly when a non-empty token is given, as
    [Bearer] and the token; and they hold nothing else. *)
Theorem base_headers_spec (a : args) :
  dict_get (base_headers a) "Content-Type" = Some "application/json"%string /\
  (forall v, dict_get (base_headers a) "Authorization" = Some v <->
             exists token, auth_token a = Some token /\ token <> ""%string /\
                           v = ("Bearer " ++ token)%string) /\
  (forall k, dict_has (base_headers a) k = true ->
             k = "Content-Type"%string \/ k = "Authorization"%string).
Proof.
  unfold base_headers. destruct (auth_token a) as [token|].
  - destruct token as [|c t]; simpl.
    + split; [reflexivity|]. split.
      * intros v. split; [discriminate|]. intros [token [[= <-] [N _]]]. congruence.
      * intros k. unfold dict_has. simpl.
        destruct (String.eqb_spec k "Content-Type"); [now left | discriminate].
    + split; [reflexivity|]. split.
      * intros v. split.
        -- intros [= <-]. exists (String c t). repeat split. discriminate.
        -- intros [token [[= <-] [_ ->]]]. reflexivity.
      * intros k. unfold dict_has. simpl.
        destruct (String.eqb_spec k "Content-Type"); [now left|].
        destruct (String.eqb_spec k "Authorization"); [now right | discriminate].
  - simpl. split; [reflexivity|]. split.
    + intros v. split; [discriminate|]. intros [token [[=] _]].
    + intros k. unfold dict_has. simpl.
      destruct (String.eqb_spec k "Content-Type"); [now left | discriminate].
Qed.

End RunnerMore.

(** ** Rows are processed one after the other *)

Module RunnerCompose.
Import Runner.

Section Compose.
Variable build_payload : record -> list string -> option string -> result pyval.
Variable a : args.
Variable send_row_put : network.
Variable csv_headers : list string.

Local Abbreviation process_rows :=
  (process_rows build_payload a send_row_put csv_headers).

(** X15.  Processing rows is processing the first of them and then, unless that
    ended in an exception, the others, with the row numbers carried on;
    after an exception no later row is looked at. *)
Theorem process_rows_in_sequence (i : nat) (first others : list record) :
  process_rows i (first ++ others) =
  match process_rows i first with
  | (printed, Some e) => (printed, Some e)
  | (printed, None) =>
      (printed ++ fst (process_rows (i + length first) others),
       snd (process_rows (i + length first) others))
  end.
Proof.
  revert i. induction first as [|row first IH]; intros i.
  - simpl. rewrite Nat.add_0_r. now destruct (process_rows i others).
  - simpl app. cbn [Runner.process_rows].
    destruct (process_row build_payload a send_row_put csv_headers i row)
      as [here|e]; [|reflexivity].
    rewrite IH.
    destruct (process_rows (S i) first) as [later [e|]]; [reflexivity|].
    simpl length. rewrite Nat.add_succ_r. simpl. now rewrite app_assoc.
Qed.
End Compose.

End RunnerCompose.
